(** * Consensus-node SDK client of the JSON-RPC relay: a shallow embedding

    The embedded program is the class [SDKClient]: the adapter that
    turns Ethereum-style requests into queries and transactions of the
    consensus network, meters each of them on a histogram and a gauge, and
    rethrows the failures of the network SDK.

    JavaScript values are modelled as the code has them:
    - a [number] is an IEEE-754 binary64 value ([spec_float] at precision 53);
    - a [string] is a Rocq [string];
    - [undefined] is [None];
    - an asynchronous method is a computation in the monad [M], which threads
      the observable effects (histogram, gauge, logger, calls made on the
      network client) and may throw. *)

From Stdlib Require Import ZArith String Ascii List Bool Lia QArith Qround.
From Stdlib Require Import Floats.SpecFloat DecimalString.
From Stdlib Require HexadecimalString HexadecimalZ.
Import ListNotations.

Set Implicit Arguments.
Open Scope string_scope.
Open Scope Z_scope.

(** ** Strings *)

Module JsString.

(** [s.startsWith(p)] *)
Fixpoint startsWith (s p : string) {struct p} : bool :=
  match p with
  | EmptyString => true
  | String b p' =>
      match s with
      | EmptyString => false
      | String a s' => Ascii.eqb a b && startsWith s' p'
      end
  end.

(** [s.substring(n)]: the string without its first [n] characters. *)
Fixpoint substring_from (n : nat) (s : string) : string :=
  match n, s with
  | O, _ => s
  | S _, EmptyString => EmptyString
  | S n', String _ s' => substring_from n' s'
  end.

Definition is_hex_digit (c : ascii) : bool :=
  let n := nat_of_ascii c in
  ((48 <=? n) && (n <=? 57) || (65 <=? n) && (n <=? 70)
   || (97 <=? n) && (n <=? 102))%nat.

Fixpoint all_hex (s : string) : bool :=
  match s with
  | EmptyString => true
  | String c s' => is_hex_digit c && all_hex s'
  end.

(** An address string: hexadecimal digits, with or without a leading
    [0x]. *)
Definition is_address (s : string) : bool :=
  match s with
  | String "0" (String "x" body) => all_hex body
  | _ => all_hex s
  end.

End JsString.

Import JsString.

(** ** The address helpers of [SDKClient] *)

(** [private static prepend0x(input)] *)
Definition prepend0x (input : string) : string :=
  if startsWith input "0x" then input else "0x" ++ input.

(** [private static prune0x(input)] *)
Definition prune0x (input : string) : string :=
  if startsWith input "0x" then substring_from 2 input else input.

(** ** Numbers *)

Module JsNumber.

(** A JavaScript number: binary64. *)
Definition number := spec_float.

Definition prec : Z := 53.
Definition emax : Z := 1024.

(** The number denoted by an integer literal or an integral field. *)
Definition of_Z (z : Z) : number := binary_normalize prec emax z 0 false.

Definition div (x y : number) : number := SFdiv prec emax x y.
Definition mul (x y : number) : number := SFmul prec emax x y.

(** ToBoolean on a number: [0], [-0] and [NaN] are falsy. *)
Definition truthy (x : number) : bool :=
  match x with
  | S754_zero _ | S754_nan => false
  | _ => true
  end.

(** [Number.isFinite] *)
Definition isFinite (x : number) : bool :=
  match x with
  | S754_zero _ | S754_finite _ _ _ => true
  | _ => false
  end.

(** How [util.format] renders a number that is not finite. *)
Definition format_not_finite (x : number) : string :=
  match x with
  | S754_infinity true => "-Infinity"
  | S754_infinity false => "Infinity"
  | _ => "NaN"
  end.

(** The least integer not below [(-1)^s * m * 2^e]. *)
Definition ceil_finite (s : bool) (m : positive) (e : Z) : Z :=
  match e with
  | Zneg p => - ((- cond_Zopp s (Zpos m)) / 2 ^ Zpos p)
  | _ => cond_Zopp s (Zpos m) * 2 ^ e
  end.

(** [Math.ceil]: infinities, zeros, NaN and integral values are returned
    as they are, a value in (-1, 0) gives [-0]. *)
Definition Math_ceil (x : number) : number :=
  match x with
  | S754_finite s m (Zneg p) =>
      match ceil_finite s m (Zneg p) with
      | 0 => S754_zero s
      | n => of_Z n
      end
  | _ => x
  end.

(** The rational value of a finite number. *)
Definition to_Q (s : bool) (m : positive) (e : Z) : Q :=
  match e with
  | Zneg p => cond_Zopp s (Zpos m) # (2 ^ p)%positive
  | _ => inject_Z (cond_Zopp s (Zpos m) * 2 ^ e)
  end.

(** The decimal rendering of an integral number in a template string. *)
Definition string_of_Z (z : Z) : string :=
  NilZero.string_of_int (Z.to_int z).

End JsNumber.

Import JsNumber.

(** ** Values of the network SDK *)

(** [Status] and [RequestType]: enumeration objects with a numeric
    [_code]. *)
Record CodeEnum := { _code : Z }.

Definition Status := CodeEnum.
Definition RequestType := CodeEnum.

Module StatusEnum.
(** The codes of the SDK's enumeration that the client names or that the
    scenarios use. *)
Definition Ok : Status := {| _code := 0 |}.
Definition InsufficientPayerBalance : Status := {| _code := 10 |}.
Definition Unknown : Status := {| _code := 21 |}.
Definition Success : Status := {| _code := 22 |}.
End StatusEnum.

(** [Long]: a 64-bit integer, on which the client does no arithmetic;
    [Hbar]: an amount held in tinybars. *)
Definition Long := Z.

(** The value held by the 64 bits of a signed [Long]. *)
Definition Long_signed (l : Long) : Z :=
  (l + 2 ^ 63) mod 2 ^ 64 - 2 ^ 63.

(** [long.toNumber()] *)
Definition Long_toNumber (l : Long) : number := of_Z (Long_signed l).

Record Hbar := { toTinybars : Long }.

Record EntityId := {
  shard : Z;
  realm : Z;
  num : Z;
  evmAddress : option string
}.

Definition AccountId := EntityId.
Definition ContractId := EntityId.

Record TransactionId := {
  tid_accountId : AccountId;
  validStart : Z
}.

Definition bytes := list Byte.byte.

Inductive QueryKind :=
| AccountBalanceQuery (accountId : option AccountId)
    (contractId : option ContractId)
| AccountInfoQuery (accountId : AccountId)
| ContractByteCodeQuery (contractId : ContractId)
| FileContentsQuery (fileId : string)
| ContractCallQuery (contractId : ContractId) (functionParameters : bytes)
    (gas : number).

Record Query := {
  kind : QueryKind;
  paymentTransactionId : option TransactionId;
  _queryPayment : option Hbar
}.

Definition newQuery (k : QueryKind) : Query :=
  {| kind := k; paymentTransactionId := None; _queryPayment := None |}.

Definition setPaymentTransactionId (t : TransactionId) (q : Query) : Query :=
  {| kind := kind q; paymentTransactionId := Some t;
     _queryPayment := _queryPayment q |}.

Definition setQueryPayment (h : Hbar) (q : Query) : Query :=
  {| kind := kind q; paymentTransactionId := paymentTransactionId q;
     _queryPayment := Some h |}.

(** [query.constructor.name] *)
Definition query_name (q : Query) : string :=
  match kind q with
  | AccountBalanceQuery _ _ => "AccountBalanceQuery"
  | AccountInfoQuery _ => "AccountInfoQuery"
  | ContractByteCodeQuery _ => "ContractByteCodeQuery"
  | FileContentsQuery _ => "FileContentsQuery"
  | ContractCallQuery _ _ _ => "ContractCallQuery"
  end.

Inductive Transaction :=
| EthereumTransaction (ethereumData : bytes)
| OtherTransaction (name : string).

(** [transaction.constructor.name] *)
Definition transaction_name (t : Transaction) : string :=
  match t with
  | EthereumTransaction _ => "EthereumTransaction"
  | OtherTransaction n => n
  end.

(** What [executeGetTransactionRecord] is handed: [getRecord] is the method
    it tests for, [false] when the object has none. *)
Record TransactionResponse := {
  transactionId : TransactionId;
  transactionHash : bytes;
  getRecord : bool
}.

Record TransactionReceipt := { status : Status }.

Record TransactionRecord := {
  receipt : TransactionReceipt;
  transactionFee : Hbar
}.

Record AccountBalance := { hbars : Hbar }.

Record FeeComponents := {
  min : option Long;
  max : option Long;
  constant : option Long;
  contractTransactionGas : option Long
}.

Record FeeData := {
  nodedata : option FeeComponents;
  networkdata : option FeeComponents;
  servicedata : option FeeComponents
}.

Record TransactionFeeSchedule := {
  hederaFunctionality : option RequestType;
  fees : option (list FeeData)
}.

Record FeeSchedule := {
  transactionFeeSchedule : option (list TransactionFeeSchedule)
}.

Record FeeSchedules := {
  current : option FeeSchedule;
  next : option FeeSchedule
}.

Record ExchangeRate := {
  rate_hbars : number;
  rate_cents : number
}.

Record ExchangeRates := {
  currentRate : ExchangeRate;
  nextRate : ExchangeRate
}.

(** What a query resolves to ([any] in the source). *)
Inductive Response :=
| BalanceResponse (b : AccountBalance)
| AccountInfoResponse (info : string)
| BytesResponse (b : bytes)
| FunctionResultResponse (r : bytes).

(** ** Thrown values *)

(** An error of the SDK carries its class, an optional [status], a message
    and a stack; [new Error(message)] carries the message only. *)
Inductive Thrown :=
| SdkError (class : string) (e_status : option Status) (message : string)
    (stack : string)
| Error (message : string)
| TypeError (message : string).

(** [e.status] *)
Definition thrown_status (e : Thrown) : option Status :=
  match e with
  | SdkError _ st _ _ => st
  | _ => None
  end.

(** [e.message] *)
Definition thrown_message (e : Thrown) : string :=
  match e with
  | SdkError _ _ m _ => m
  | Error m => m
  | TypeError m => m
  end.

(** [e.status && e.status._code] as a condition. *)
Definition has_status_code (e : Thrown) : bool :=
  match thrown_status e with
  | Some st => negb (_code st =? 0)
  | None => false
  end.

(** ** Observable effects *)

Record Observation := {
  obs_mode : string;
  obs_type : string;
  obs_status : option Status;
  obs_value : number
}.

Inductive GaugeOp :=
| GaugeSet (value : number)
| GaugeDec (mode type : string) (value : option number).

Inductive LogLine :=
| InfoQueryResponse (queryName : string) (statusCode : Z)
| TraceQueryCost (paymentId : option TransactionId) (payment : option Hbar)
| DebugQueryResponse (queryName : string) (statusCode : Z)
| InfoExecuteTransaction (transactionType : string)
| InfoTransactionResponse (transactionType : string)
    (id : option TransactionId) (statusCode : Z)
| TraceTransactionCost (id : TransactionId) (fee : Hbar)
| ErrorCollectingBalance (e : Thrown).

Inductive NetCall :=
| QueryExecute (q : Query)
| QueryGetCost (q : Query)
| TransactionExecute (t : Transaction)
| ResponseGetRecord (r : TransactionResponse).

(** The state a method runs in: the calls received so far by the histogram
    [consensusNodeClientHistorgram], by the gauge [operatorAccountGauge], by
    the logger and by the network client, oldest first. *)
Record World := {
  histogram : list Observation;
  gauge : list GaugeOp;
  logger : list LogLine;
  network : list NetCall
}.

Definition empty_world : World :=
  {| histogram := []; gauge := []; logger := []; network := [] |}.

(** ** The monad of methods *)

Inductive Completion (A : Type) :=
| Return (a : A)
| Throw (e : Thrown).

Arguments Return {A} a.
Arguments Throw {A} e.

Definition M (A : Type) := World -> Completion A * World.

Definition ret {A} (a : A) : M A := fun w => (Return a, w).

Definition throw {A} (e : Thrown) : M A := fun w => (Throw e, w).

Definition bind {A B} (c : M A) (k : A -> M B) : M B :=
  fun w =>
    match c w with
    | (Return a, w') => k a w'
    | (Throw e, w') => (Throw e, w')
    end.

(** [try { body } catch (e) { handler }] *)
Definition try_catch {A} (body : M A) (handler : Thrown -> M A) : M A :=
  fun w =>
    match body w with
    | (Return a, w') => (Return a, w')
    | (Throw e, w') => handler e w'
    end.

(** A call that completes without touching the state. *)
Definition lift {A} (c : Completion A) : M A := fun w => (c, w).

Declare Scope method_scope.
Delimit Scope method_scope with method.
Notation "x <- c ;; k" := (bind c (fun x => k))
  (at level 61, c at next level, right associativity) : method_scope.
Notation "c ;; k" := (bind c (fun _ => k))
  (at level 61, right associativity) : method_scope.

Definition observe (o : Observation) : M unit :=
  fun w => (Return tt,
            {| histogram := histogram w ++ [o]; gauge := gauge w;
               logger := logger w; network := network w |}).

Definition gauge_op (g : GaugeOp) : M unit :=
  fun w => (Return tt,
            {| histogram := histogram w; gauge := gauge w ++ [g];
               logger := logger w; network := network w |}).

Definition log (l : LogLine) : M unit :=
  fun w => (Return tt,
            {| histogram := histogram w; gauge := gauge w;
               logger := logger w ++ [l]; network := network w |}).

(** A round trip to the network: the call is recorded, then completes as
    the network decides. *)
Definition call {A} (c : NetCall) (r : Completion A) : M A :=
  fun w => (r,
            {| histogram := histogram w; gauge := gauge w;
               logger := logger w; network := network w ++ [c] |}).

(** ** The runtime and the SDK, as the client sees them *)

(** [Buffer.from(s, 'hex')]: pairs of hexadecimal digits, up to the first
    pair that is not one. *)
Definition hex_value (c : ascii) : option nat :=
  let n := nat_of_ascii c in
  if ((48 <=? n) && (n <=? 57))%nat then Some (n - 48)%nat
  else if ((65 <=? n) && (n <=? 70))%nat then Some (n - 55)%nat
  else if ((97 <=? n) && (n <=? 102))%nat then Some (n - 87)%nat
  else None.

Fixpoint Buffer_from_hex (s : string) : bytes :=
  match s with
  | String a (String b rest) =>
      match hex_value a, hex_value b with
      | Some x, Some y =>
          byte_of_ascii (ascii_of_nat (16 * x + y)) :: Buffer_from_hex rest
      | _, _ => []
      end
  | _ => []
  end.

(** The client [clientMain] and the SDK functions the class calls. Each
    network round trip completes with a value or throws; the parsers of the
    SDK may throw as well. [query.execute] also writes on the query object:
    [Query_assessedPayment] and [Query_assignedTransactionId] are what it
    leaves in [_queryPayment] and [paymentTransactionId] when they were not
    set before the call. *)
Record Sdk := {
  operatorAccountId : option AccountId;
  AccountId_fromString : string -> Completion AccountId;
  ContractId_fromString : string -> Completion ContractId;
  ContractId_fromEvmAddress : Z -> Z -> string -> Completion ContractId;
  ContractId_fromSolidityAddress : string -> Completion ContractId;
  TransactionId_generate : AccountId -> TransactionId;
  ExchangeRates_fromBytes : Response -> Completion ExchangeRates;
  FeeSchedules_fromBytes : Response -> Completion FeeSchedules;
  Query_execute : Query -> Completion Response;
  Query_assessedPayment : Query -> option Hbar;
  Query_assignedTransactionId : Query -> option TransactionId;
  Query_getCost : Query -> Completion Hbar;
  Transaction_execute : Transaction -> Completion TransactionResponse;
  TransactionResponse_getRecord :
    TransactionResponse -> Completion TransactionRecord;
  JSON_stringify : TransactionResponse -> string
}.

(** The module [constants] is imported by the class but is not among the
    sources: its values are parameters of the model. *)
Record Constants := {
  EXCHANGE_RATE_FILE_ID : string;
  FEE_SCHEDULE_FILE_ID : string;
  ETH_FUNCTIONALITY_CODE : Z;
  DEFAULT_TINY_BAR_GAS : number;
  TINYBAR_TO_WEIBAR_COEF : Z
}.

(** ** The class [SDKClient] *)

Section SDKClient.

Variable clientMain : Sdk.
Variable constants : Constants.

Local Open Scope method_scope.

Definition transactionMode : string := "TRANSACTION".
Definition queryMode : string := "QUERY".

(** [cost ? cost : 0] *)
Definition resolvedCost (cost : option number) : number :=
  match cost with
  | Some c => if truthy c then c else of_Z 0
  | None => of_Z 0
  end.

(** [histogram.labels(mode, type, status).observe(value)]: the histogram
    refuses a value that is not finite, with a [TypeError]. *)
Definition histogram_observe (mode type : string) (status : option Status)
  (value : number) : M unit :=
  if isFinite value
  then observe {| obs_mode := mode; obs_type := type; obs_status := status;
                  obs_value := value |}
  else throw (TypeError ("Value is not a valid number: "
                         ++ format_not_finite value)).

(** [private captureMetrics = (mode, type, status, cost) => ...] *)
Definition captureMetrics (mode type : string) (status : option Status)
  (cost : option number) : M unit :=
  histogram_observe mode type status (resolvedCost cost) ;;
  gauge_op (GaugeDec mode type cost).

(** [query._queryPayment?.toTinybars().toNumber()] *)
Definition queryPaymentNumber (query : Query) : option number :=
  option_map (fun h => Long_toNumber (toTinybars h)) (_queryPayment query).

(** [e.status ? e.status._code : Status.Unknown._code] *)
Definition statusCode (e : Thrown) : Z :=
  match thrown_status e with
  | Some st => _code st
  | None => _code StatusEnum.Unknown
  end.

(** The end of the three executor [catch] blocks:
    [if (e.status && e.status._code) throw new Error(e.message); throw e] *)
Definition rethrow (e : Thrown) : Thrown :=
  if has_status_code e then Error (thrown_message e) else e.

(** The query object once [query.execute(client)] has run on it: what was
    set on it stays, what was not is filled in by the SDK. *)
Definition executed (query : Query) : Query :=
  {| kind := kind query;
     paymentTransactionId :=
       match paymentTransactionId query with
       | Some id => Some id
       | None => Query_assignedTransactionId clientMain query
       end;
     _queryPayment :=
       match _queryPayment query with
       | Some payment => Some payment
       | None => Query_assessedPayment clientMain query
       end |}.

(** [private executeQuery = async (query, client) => ...]; every caller
    passes [this.clientMain] as [client]. The fields of [query] are read after
    [execute] has run, in the [try] block and in the [catch] block alike. *)
Definition executeQuery (query : Query) : M Response :=
  try_catch
    (resp <- call (QueryExecute query) (Query_execute clientMain query) ;;
     log (InfoQueryResponse (query_name query) (_code StatusEnum.Success)) ;;
     log (TraceQueryCost (paymentTransactionId (executed query))
            (_queryPayment (executed query))) ;;
     captureMetrics queryMode (query_name query) (Some StatusEnum.Success)
       (queryPaymentNumber (executed query)) ;;
     ret resp)
    (fun e =>
       log (DebugQueryResponse (query_name query) (statusCode e)) ;;
       captureMetrics queryMode (query_name query) (thrown_status e)
         (queryPaymentNumber (executed query)) ;;
       throw (rethrow e)).

(** [private executeTransaction = async (transaction) => ...] *)
Definition executeTransaction (transaction : Transaction)
  : M TransactionResponse :=
  let transactionType := transaction_name transaction in
  try_catch
    (log (InfoExecuteTransaction transactionType) ;;
     resp <- call (TransactionExecute transaction)
               (Transaction_execute clientMain transaction) ;;
     log (InfoTransactionResponse transactionType (Some (transactionId resp))
            (_code StatusEnum.Success)) ;;
     ret resp)
    (fun e =>
       log (InfoTransactionResponse transactionType None (statusCode e)) ;;
       throw (rethrow e)).

(** [executeGetTransactionRecord = async (resp, transactionName) => ...] *)
Definition executeGetTransactionRecord (resp : TransactionResponse)
  (transactionName : string) : M TransactionRecord :=
  try_catch
    ((if getRecord resp then ret tt
      else throw (Error
             ("Invalid response format, expected record availability: "
              ++ JSON_stringify clientMain resp))) ;;
     transactionRecord <- call (ResponseGetRecord resp)
                            (TransactionResponse_getRecord clientMain resp) ;;
     log (TraceTransactionCost (transactionId resp)
            (transactionFee transactionRecord)) ;;
     captureMetrics transactionMode transactionName
       (Some (status (receipt transactionRecord)))
       (Some (Long_toNumber (toTinybars (transactionFee transactionRecord)))) ;;
     ret transactionRecord)
    (fun e =>
       if has_status_code e then
         captureMetrics transactionMode transactionName (thrown_status e)
           (Some (of_Z 0)) ;;
         throw (Error (thrown_message e))
       else throw e).

(** [private convertGasPriceToTinyBars = (feeComponents, exchangeRates) => ...] *)
Definition convertGasPriceToTinyBars (feeComponents : option FeeComponents)
  (exchangeRates : ExchangeRates) : number :=
  match feeComponents with
  | None => DEFAULT_TINY_BAR_GAS constants
  | Some fc =>
      match contractTransactionGas fc with
      | None => DEFAULT_TINY_BAR_GAS constants
      | Some gas =>
          Math_ceil
            (mul (div (Long_toNumber gas) (of_Z 1000))
                 (div (rate_hbars (currentRate exchangeRates))
                      (rate_cents (currentRate exchangeRates))))
      end
  end.

(** [async getFileIdBytes(address)] *)
Definition getFileIdBytes (address : string) : M Response :=
  executeQuery (newQuery (FileContentsQuery address)).

(** [async getExchangeRate()] *)
Definition getExchangeRate : M ExchangeRates :=
  exchangeFileBytes <- getFileIdBytes (EXCHANGE_RATE_FILE_ID constants) ;;
  lift (ExchangeRates_fromBytes clientMain exchangeFileBytes).

(** [async getFeeSchedule()] *)
Definition getFeeSchedule : M FeeSchedules :=
  feeSchedulesFileBytes <- getFileIdBytes (FEE_SCHEDULE_FILE_ID constants) ;;
  lift (FeeSchedules_fromBytes clientMain feeSchedulesFileBytes).

(** [schedule.hederaFunctionality?._code === constants.ETH_FUNCTIONALITY_CODE] *)
Definition is_eth_functionality (schedule : TransactionFeeSchedule) : bool :=
  match hederaFunctionality schedule with
  | Some f => _code f =? ETH_FUNCTIONALITY_CODE constants
  | None => false
  end.

(** The [for ... of] loop of [getTinyBarGasFee] and the [throw] after it. *)
Fixpoint getTinyBarGasFee_loop (schedules : list TransactionFeeSchedule)
  : M number :=
  match schedules with
  | [] =>
      throw (Error (string_of_Z (ETH_FUNCTIONALITY_CODE constants)
                    ++ " code not found in feeSchedule"))
  | schedule :: rest =>
      match is_eth_functionality schedule, fees schedule with
      | true, Some fs =>
          exchangeRates <- getExchangeRate ;;
          match fs with
          | fee0 :: _ =>
              ret (convertGasPriceToTinyBars (servicedata fee0) exchangeRates)
          | [] =>
              throw (TypeError
                "Cannot read properties of undefined (reading 'servicedata')")
          end
      | _, _ => getTinyBarGasFee_loop rest
      end
  end.

(** [async getTinyBarGasFee()] *)
Definition getTinyBarGasFee : M number :=
  feeSchedules <- getFeeSchedule ;;
  match current feeSchedules with
  | None => throw (Error "Invalid FeeSchedules proto format")
  | Some cur =>
      match transactionFeeSchedule cur with
      | None => throw (Error "Invalid FeeSchedules proto format")
      | Some schedules => getTinyBarGasFee_loop schedules
      end
  end.

(** [async getAccountBalance(account)] *)
Definition getAccountBalance (account : string) : M Response :=
  id <- lift (AccountId_fromString clientMain account) ;;
  executeQuery (newQuery (AccountBalanceQuery (Some id) None)).

(** [async getAccountInfo(address)] *)
Definition getAccountInfo (address : string) : M Response :=
  id <- lift (AccountId_fromString clientMain address) ;;
  executeQuery (newQuery (AccountInfoQuery id)).

(** [async getContractByteCode(shard, realm, address)] *)
Definition getContractByteCode (shard realm : Z) (address : string)
  : M Response :=
  id <- lift (ContractId_fromEvmAddress clientMain shard realm address) ;;
  executeQuery (newQuery (ContractByteCodeQuery id)).

(** [async getContractBalance(contract)] *)
Definition getContractBalance (contract : string) : M Response :=
  id <- lift (ContractId_fromString clientMain contract) ;;
  executeQuery (newQuery (AccountBalanceQuery None (Some id))).

(** [private static HbarToWeiBar(balance)], on what the query resolved to. *)
Definition HbarToWeiBar (balance : Response) : M Z :=
  match balance with
  | BalanceResponse b =>
      ret (toTinybars (hbars b) * TINYBAR_TO_WEIBAR_COEF constants)
  | _ =>
      throw (TypeError "Cannot read properties of undefined (reading 'to')")
  end.

(** [async getAccountBalanceInWeiBar(account)] *)
Definition getAccountBalanceInWeiBar (account : string) : M Z :=
  balance <- getAccountBalance account ;;
  HbarToWeiBar balance.

(** [async getContractBalanceInWeiBar(account)] *)
Definition getContractBalanceInWeiBar (account : string) : M Z :=
  balance <- getContractBalance account ;;
  HbarToWeiBar balance.

(** [async submitEthereumTransaction(transactionBuffer)] *)
Definition submitEthereumTransaction (transactionBuffer : bytes)
  : M TransactionResponse :=
  executeTransaction (EthereumTransaction transactionBuffer).

(** [async submitContractCallQuery(to, data, gas)] *)
Definition submitContractCallQuery (to data : string) (gas : number)
  : M Response :=
  let contract := prune0x to in
  let callData := prune0x data in
  contractId <- lift (if startsWith contract "00000000000"
                      then ContractId_fromSolidityAddress clientMain contract
                      else ContractId_fromEvmAddress clientMain 0 0 contract) ;;
  let contractCallQuery :=
    newQuery (ContractCallQuery contractId (Buffer_from_hex callData) gas) in
  let contractCallQuery :=
    match operatorAccountId clientMain with
    | Some operator =>
        setPaymentTransactionId
          (TransactionId_generate clientMain operator) contractCallQuery
    | None => contractCallQuery
    end in
  cost <- call (QueryGetCost contractCallQuery)
            (Query_getCost clientMain contractCallQuery) ;;
  executeQuery (setQueryPayment cost contractCallQuery).

(** The [collect] callback of the gauge [rpc_relay_operator_balance];
    [setAccountId] throws on a null [operatorAccountId]. *)
Definition collect : M unit :=
  try_catch
    (query <- match operatorAccountId clientMain with
              | Some operator =>
                  ret (newQuery (AccountBalanceQuery (Some operator) None))
              | None =>
                  throw (TypeError
                    "Cannot read properties of null (reading 'clone')")
              end ;;
     accountBalance <- call (QueryExecute query)
                         (Query_execute clientMain query) ;;
     match accountBalance with
     | BalanceResponse b =>
         gauge_op (GaugeSet (Long_toNumber (toTinybars (hbars b))))
     | _ =>
         throw (TypeError
           "Cannot read properties of undefined (reading 'toTinybars')")
     end)
    (fun e =>
       log (ErrorCollectingBalance e) ;;
       gauge_op (GaugeSet (of_Z 0))).

End SDKClient.

(** ** Describing outcomes *)

(** The world [w] after the given calls were received, in order, by the
    histogram, the gauge, the logger and the network client. *)
Definition extend (w : World) (h : list Observation) (g : list GaugeOp)
  (l : list LogLine) (n : list NetCall) : World :=
  {| histogram := histogram w ++ h; gauge := gauge w ++ g;
     logger := logger w ++ l; network := network w ++ n |}.

(** The fee-schedule query and the exchange-rate query of the class. *)
Definition feeScheduleQuery (constants : Constants) : Query :=
  newQuery (FileContentsQuery (FEE_SCHEDULE_FILE_ID constants)).

Definition exchangeRateQuery (constants : Constants) : Query :=
  newQuery (FileContentsQuery (EXCHANGE_RATE_FILE_ID constants)).

(** An entry the loop of [getTinyBarGasFee] stops at. *)
Definition selected (constants : Constants) (s : TransactionFeeSchedule)
  : bool :=
  is_eth_functionality constants s
  && match fees s with Some _ => true | None => false end.

(** The query [submitContractCallQuery] has built when it asks the network
    for its cost. *)
Definition contractCallQueryOf (clientMain : Sdk) (contractId : ContractId)
  (data : string) (gas : number) : Query :=
  let query :=
    newQuery (ContractCallQuery contractId (Buffer_from_hex (prune0x data))
                gas) in
  match operatorAccountId clientMain with
  | Some operator =>
      setPaymentTransactionId (TransactionId_generate clientMain operator)
        query
  | None => query
  end.

(** ** Concrete configurations used in the examples *)

Module Sample.

Definition constants : Constants :=
  {| EXCHANGE_RATE_FILE_ID := "0.0.112";
     FEE_SCHEDULE_FILE_ID := "0.0.111";
     ETH_FUNCTIONALITY_CODE := 84;
     DEFAULT_TINY_BAR_GAS := of_Z 72;
     TINYBAR_TO_WEIBAR_COEF := 10000000000 |}.

Definition operator : AccountId :=
  {| shard := 0; realm := 0; num := 2; evmAddress := None |}.

Definition contract (address : string) : ContractId :=
  {| shard := 0; realm := 0; num := 0; evmAddress := Some address |}.

(** What the sample nodes make of a solidity address: an id by number. *)
Definition numbered : ContractId :=
  {| shard := 0; realm := 0; num := 1000; evmAddress := None |}.

Definition rates : ExchangeRates :=
  {| currentRate := {| rate_hbars := of_Z 1; rate_cents := of_Z 12 |};
     nextRate := {| rate_hbars := of_Z 1; rate_cents := of_Z 15 |} |}.

Definition components (gas : option Long) : FeeComponents :=
  {| min := None; max := None; constant := None;
     contractTransactionGas := gas |}.

Definition entry (code : Z) (fs : option (list FeeData))
  : TransactionFeeSchedule :=
  {| hederaFunctionality := Some {| _code := code |}; fees := fs |}.

Definition feeData (service : option FeeComponents) : FeeData :=
  {| nodedata := None; networkdata := None; servicedata := service |}.

Definition schedules (l : list TransactionFeeSchedule) : FeeSchedules :=
  {| current := Some {| transactionFeeSchedule := Some l |}; next := None |}.

(** What the sample nodes charge for a query sent without a payment:
    nothing for a balance, 25 tinybars otherwise. *)
Definition assessed (q : Query) : option Hbar :=
  match kind q with
  | AccountBalanceQuery _ _ => None
  | _ => Some {| toTinybars := 25 |}
  end.

(** A node that serves both system files, parsed as [fs] and [rates], and
    completes every other query as [other], every cost estimation with 100
    tinybars, every submission as [tx] and every record retrieval as
    [record]. *)
Definition sdk (fs : FeeSchedules) (other : Completion Response)
  (tx : Completion TransactionResponse)
  (record : Completion TransactionRecord) : Sdk :=
  {| operatorAccountId := Some operator;
     AccountId_fromString := fun _ => Return operator;
     ContractId_fromString := fun a => Return (contract a);
     ContractId_fromEvmAddress := fun _ _ a => Return (contract a);
     ContractId_fromSolidityAddress := fun _ => Return numbered;
     TransactionId_generate :=
       fun a => {| tid_accountId := a; validStart := 0 |};
     ExchangeRates_fromBytes := fun _ => Return rates;
     FeeSchedules_fromBytes := fun _ => Return fs;
     Query_execute :=
       fun q =>
         match kind q with
         | FileContentsQuery _ => Return (BytesResponse [])
         | _ => other
         end;
     Query_assessedPayment := assessed;
     Query_assignedTransactionId :=
       fun _ => Some {| tid_accountId := operator; validStart := 0 |};
     Query_getCost := fun _ => Return {| toTinybars := 100 |};
     Transaction_execute := fun _ => tx;
     TransactionResponse_getRecord := fun _ => record;
     JSON_stringify := fun _ => "{}" |}.

Definition response (withRecord : bool) : TransactionResponse :=
  {| transactionId := {| tid_accountId := operator; validStart := 0 |};
     transactionHash := [];
     getRecord := withRecord |}.

Definition record (fee : Long) : TransactionRecord :=
  {| receipt := {| status := StatusEnum.Success |};
     transactionFee := {| toTinybars := fee |} |}.

(** A failure reported by the network with the given status. *)
Definition failure (st : option Status) : Thrown :=
  SdkError "PrecheckStatusError" st "transaction failed precheck"
    "PrecheckStatusError: transaction failed precheck at execute".

Definition healthy : Sdk :=
  sdk (schedules [entry 84 (Some [feeData (Some (components (Some 853000)))])])
    (Return (FunctionResultResponse []))
    (Return (response true)) (Return (record 5000)).

(** A node on which every call but the reads of the system files fails
    with [failure st]. *)
Definition failing (st : option Status) : Sdk :=
  sdk (schedules []) (Throw (failure st)) (Throw (failure st))
    (Throw (failure st)).

(** A node that cannot be reached: every query fails with [failure st]. *)
Definition unreachable (st : option Status) : Sdk :=
  {| operatorAccountId := Some operator;
     AccountId_fromString := fun _ => Return operator;
     ContractId_fromString := fun a => Return (contract a);
     ContractId_fromEvmAddress := fun _ _ a => Return (contract a);
     ContractId_fromSolidityAddress := fun a => Return (contract a);
     TransactionId_generate :=
       fun a => {| tid_accountId := a; validStart := 0 |};
     ExchangeRates_fromBytes := fun _ => Return rates;
     FeeSchedules_fromBytes := fun _ => Return (schedules []);
     Query_execute := fun _ => Throw (failure st);
     Query_assessedPayment := fun _ => None;
     Query_assignedTransactionId := fun _ => None;
     Query_getCost := fun _ => Throw (failure st);
     Transaction_execute := fun _ => Throw (failure st);
     TransactionResponse_getRecord := fun _ => Throw (failure st);
     JSON_stringify := fun _ => "{}" |}.

(** A contract call with its payment of 100 tinybars already set. *)
Definition paidCall : Query :=
  setQueryPayment {| toTinybars := 100 |}
    (newQuery (ContractCallQuery
                 (contract "00000000000000000000000000000000000003e8") []
                 (of_Z 30000))).

End Sample.

(** ** The rest of the class *)

Section SDKClientHelpers.

Variable clientMain : Sdk.

(** [AccountId.fromEvmAddress], which only [toAccountId] calls. *)
Variable AccountId_fromEvmAddress : Z -> Z -> string -> Completion AccountId.

(** [async getRecord(transactionResponse)]: the call goes to the response
    itself, outside the executor. *)
Definition SDKClient_getRecord (transactionResponse : TransactionResponse)
  : M TransactionRecord :=
  if getRecord transactionResponse
  then call (ResponseGetRecord transactionResponse)
         (TransactionResponse_getRecord clientMain transactionResponse)
  else throw (TypeError "transactionResponse.getRecord is not a function").

(** [private static toAccountId(ethAddress)] *)
Definition toAccountId (ethAddress : string) : Completion AccountId :=
  AccountId_fromEvmAddress 0 0 (prune0x ethAddress).

(** [private static toContractId(ethAddress)] *)
Definition toContractId (ethAddress : string) : Completion ContractId :=
  ContractId_fromSolidityAddress clientMain (prepend0x ethAddress).

End SDKClientHelpers.

(** ** [Web3Impl], in [packages/relay/src/lib/web3.ts] *)

Module Web3Impl.

(** [s + v] for a string [s] and a value [v] that is a string or
    [undefined]. *)
Definition plus (s : string) (v : option string) : string :=
  s ++ match v with
       | Some x => x
       | None => "undefined"
       end.

(** [a ?? b] *)
Definition nullish_coalesce {A} (a : option A) (b : A) : A :=
  match a with
  | Some x => x
  | None => b
  end.

(** [clientVersion()], as a function of [process.env.npm_package_version]:
    ['relay/' + process.env.npm_package_version ?? ''], where [+] binds
    tighter than [??]. *)
Definition clientVersion (npm_package_version : option string) : string :=
  nullish_coalesce (Some (plus "relay/" npm_package_version)) "".

End Web3Impl.

(** ** The JSON-RPC server, [packages/server/src/server.ts] *)

Module Server.

(** [num.toString(16)] for a number that holds the integer [num]. *)
Definition toString16 (num : Z) : string :=
  HexadecimalString.NilZero.string_of_int (Z.to_hex_int num).

(** [function toHexString(num)] *)
Definition toHexString (num : Z) : string := "0x" ++ toString16 num.

End Server.

(** ** Histogram and gauge in step *)

(** The gauge call that [captureMetrics] pairs with an observation. *)
Definition paired (o : Observation) (g : GaugeOp) : Prop :=
  exists cost,
    g = GaugeDec (obs_mode o) (obs_type o) cost
    /\ obs_value o = resolvedCost cost.

(** A method that only adds to what the histogram, the gauge, the logger and
    the network client have received, one gauge decrement per observation. *)
Definition metered {A} (c : M A) : Prop :=
  forall w, exists h g l n,
    snd (c w) = extend w h g l n /\ Forall2 paired h g.

(** The cost observed for a query: the payment it carries once executed,
    in tinybars, and 0 when it carries none. *)
Definition observedCost (clientMain : Sdk) (query : Query) : number :=
  match _queryPayment (executed clientMain query) with
  | Some payment => Long_toNumber (toTinybars payment)
  | None => of_Z 0
  end.

(** The world after [executeQuery] has run [query] with success. *)
Definition queried (clientMain : Sdk) (w : World) (query : Query) : World :=
  extend w
    [{| obs_mode := queryMode; obs_type := query_name query;
        obs_status := Some StatusEnum.Success;
        obs_value := observedCost clientMain query |}]
    [GaugeDec queryMode (query_name query)
       (queryPaymentNumber (executed clientMain query))]
    [InfoQueryResponse (query_name query) 22;
     TraceQueryCost (paymentTransactionId (executed clientMain query))
       (_queryPayment (executed clientMain query))]
    [QueryExecute query].

(** The world after a system file was read through [getFileIdBytes]. *)
Definition fileFetched (clientMain : Sdk) (w : World) (fileId : string)
  : World :=
  queried clientMain w (newQuery (FileContentsQuery fileId)).

(** ** Nodes that fail at one point *)

Module Scenario.

(** [base] with its network queries answered by [queries] and its SDK
    parsers and cost estimation replaced. *)
Definition node (base : Sdk) (queries : Query -> Completion Response)
  (cost : Query -> Completion Hbar)
  (accountIds : string -> Completion AccountId)
  (contractIds : string -> Completion ContractId)
  (schedules : Response -> Completion FeeSchedules) : Sdk :=
  {| operatorAccountId := operatorAccountId base;
     AccountId_fromString := accountIds;
     ContractId_fromString := contractIds;
     ContractId_fromEvmAddress := fun _ _ a => contractIds a;
     ContractId_fromSolidityAddress := contractIds;
     TransactionId_generate := TransactionId_generate base;
     ExchangeRates_fromBytes := ExchangeRates_fromBytes base;
     FeeSchedules_fromBytes := schedules;
     Query_execute := queries;
     Query_assessedPayment := Query_assessedPayment base;
     Query_assignedTransactionId := Query_assignedTransactionId base;
     Query_getCost := cost;
     Transaction_execute := Transaction_execute base;
     TransactionResponse_getRecord := TransactionResponse_getRecord base;
     JSON_stringify := JSON_stringify base |}.

Definition parseError : Thrown :=
  SdkError "Error" None "failed to parse entity id" "Error at fromString".

(** A table in which the contract-call entry comes second and is followed by
    another one with the same code. *)
Definition priced (code : Z) (gas : Long) : TransactionFeeSchedule :=
  Sample.entry code
    (Some [Sample.feeData (Some (Sample.components (Some gas)))]).

Definition crowded : Sdk :=
  Sample.sdk
    (Sample.schedules [priced 83 1000; priced 84 853000; priced 84 1000])
    (Return (FunctionResultResponse []))
    (Return (Sample.response true)) (Return (Sample.record 5000)).

(** The fee-schedule file is served but does not parse. *)
Definition garbled : Sdk :=
  node Sample.healthy (Query_execute Sample.healthy)
    (Query_getCost Sample.healthy) (AccountId_fromString Sample.healthy)
    (ContractId_fromString Sample.healthy)
    (fun _ => Throw parseError).

(** The fee-schedule file is served, the exchange-rate file is not. *)
Definition ratesDown : Sdk :=
  node Sample.healthy
    (fun q =>
       match kind q with
       | FileContentsQuery id =>
           if String.eqb id "0.0.111" then Return (BytesResponse [])
           else Throw (Sample.failure (Some StatusEnum.InsufficientPayerBalance))
       | _ => Return (FunctionResultResponse [])
       end)
    (Query_getCost Sample.healthy) (AccountId_fromString Sample.healthy)
    (ContractId_fromString Sample.healthy)
    (FeeSchedules_fromBytes Sample.healthy).

(** As [ratesDown], with the fee-schedule file parsed as [fs]. *)
Definition ratesDownWith (fs : FeeSchedules) : Sdk :=
  node ratesDown (Query_execute ratesDown) (Query_getCost ratesDown)
    (AccountId_fromString ratesDown) (ContractId_fromString ratesDown)
    (fun _ => Return fs).

(** Cost estimation fails with a status. *)
Definition costless : Sdk :=
  node Sample.healthy (Query_execute Sample.healthy)
    (fun _ =>
       Throw (Sample.failure (Some StatusEnum.InsufficientPayerBalance)))
    (AccountId_fromString Sample.healthy)
    (ContractId_fromString Sample.healthy)
    (FeeSchedules_fromBytes Sample.healthy).

(** No identifier parses. *)
Definition unparsable : Sdk :=
  node Sample.healthy (Query_execute Sample.healthy)
    (Query_getCost Sample.healthy) (fun _ => Throw parseError)
    (fun _ => Throw parseError) (FeeSchedules_fromBytes Sample.healthy).

(** A client without an operator, on a node where every balance query
    finds 500000000 tinybars. *)
Definition anonymous : Sdk :=
  {| operatorAccountId := None;
     AccountId_fromString := AccountId_fromString Sample.healthy;
     ContractId_fromString := ContractId_fromString Sample.healthy;
     ContractId_fromEvmAddress := ContractId_fromEvmAddress Sample.healthy;
     ContractId_fromSolidityAddress :=
       ContractId_fromSolidityAddress Sample.healthy;
     TransactionId_generate := TransactionId_generate Sample.healthy;
     ExchangeRates_fromBytes := ExchangeRates_fromBytes Sample.healthy;
     FeeSchedules_fromBytes := FeeSchedules_fromBytes Sample.healthy;
     Query_execute :=
       fun _ =>
         Return (BalanceResponse {| hbars := {| toTinybars := 500000000 |} |});
     Query_assessedPayment := fun _ => None;
     Query_assignedTransactionId := fun _ => None;
     Query_getCost := Query_getCost Sample.healthy;
     Transaction_execute := Transaction_execute Sample.healthy;
     TransactionResponse_getRecord :=
       TransactionResponse_getRecord Sample.healthy;
     JSON_stringify := JSON_stringify Sample.healthy |}.

(** Every balance query finds 500000000 tinybars. *)
Definition funded : Sdk :=
  Sample.sdk (Sample.schedules [])
    (Return (BalanceResponse {| hbars := {| toTinybars := 500000000 |} |}))
    (Return (Sample.response true)) (Return (Sample.record 5000)).

End Scenario.

(** * Properties *)

Section AddressHelpers.

Lemma startsWith_0x_cons (s : string) : startsWith ("0x" ++ s) "0x" = true.
Proof. reflexivity. Qed.

Lemma startsWith_0x_inv (s : string) :
  startsWith s "0x" = true -> s = "0x" ++ substring_from 2 s.
Proof.
  destruct s as [|a [|b s]]; simpl; try discriminate.
  - rewrite andb_false_r. discriminate.
  - rewrite andb_true_r. intros H. apply andb_prop in H as [Ha Hb].
    apply Ascii.eqb_eq in Ha, Hb. now subst.
Qed.

Lemma prepend0x_startsWith (s : string) : startsWith (prepend0x s) "0x" = true.
Proof.
  unfold prepend0x. destruct (startsWith s "0x") eqn:E; [exact E|].
  apply startsWith_0x_cons.
Qed.

Lemma prune0x_prepend0x (s : string) : prune0x (prepend0x s) = prune0x s.
Proof.
  unfold prepend0x. destruct (startsWith s "0x") eqn:E; [reflexivity|].
  unfold prune0x. rewrite startsWith_0x_cons, E. reflexivity.
Qed.

Lemma all_hex_not_0x (s : string) :
  all_hex s = true -> startsWith s "0x" = false.
Proof.
  intros H. destruct (startsWith s "0x") eqn:E; [|reflexivity].
  rewrite (startsWith_0x_inv _ E) in H. discriminate H.
Qed.

Lemma is_address_unfold (s : string) :
  is_address s
  = if startsWith s "0x" then all_hex (substring_from 2 s) else all_hex s.
Proof.
  destruct s as [|a [|b s]]; try reflexivity.
  - destruct a as [[] [] [] [] [] [] [] []]; reflexivity.
  - destruct a as [[] [] [] [] [] [] [] []]; try reflexivity.
    destruct b as [[] [] [] [] [] [] [] []]; reflexivity.
Qed.

Lemma is_address_pruned (s : string) :
  is_address s = true -> all_hex (prune0x s) = true.
Proof.
  rewrite is_address_unfold. unfold prune0x.
  destruct (startsWith s "0x"); trivial.
Qed.

(** When the pruned input has no [0x] of its own left, pruning and then
    prepending gives what prepending alone gives. *)
Lemma prepend0x_prune0x (s : string) :
  startsWith (prune0x s) "0x" = false -> prepend0x (prune0x s) = prepend0x s.
Proof.
  intros H. unfold prepend0x at 1. rewrite H.
  unfold prune0x, prepend0x. destruct (startsWith s "0x") eqn:E.
  - symmetry. apply startsWith_0x_inv, E.
  - reflexivity.
Qed.

(** C6: for every address string [x], with or without a leading [0x],
    [prepend0x (prune0x x) = prepend0x x] and
    [prune0x (prepend0x x) = prune0x x]. *)
Theorem address_helpers_round_trip (x : string) :
  is_address x = true ->
  prepend0x (prune0x x) = prepend0x x /\ prune0x (prepend0x x) = prune0x x.
Proof.
  intros H. split.
  - apply prepend0x_prune0x, all_hex_not_0x, is_address_pruned, H.
  - apply prune0x_prepend0x.
Qed.

Lemma address_helpers_round_trip_witness :
  is_address "0x00000000000000000000000000000000000003e8" = true
  /\ (prepend0x (prune0x "0x00000000000000000000000000000000000003e8")
      = prepend0x "0x00000000000000000000000000000000000003e8"
      /\ prune0x (prepend0x "0x00000000000000000000000000000000000003e8")
         = prune0x "0x00000000000000000000000000000000000003e8").
Proof.
  split; [reflexivity|].
  apply (@address_helpers_round_trip
           "0x00000000000000000000000000000000000003e8").
  reflexivity.
Defined.

(** The hexadecimal shape matters for the first equation: a string that
    repeats the prefix is pruned once only. *)
Remark prepend0x_prune0x_repeated_prefix :
  prepend0x (prune0x "0x0xab") = "0xab" /\ prepend0x "0x0xab" = "0x0xab".
Proof. split; reflexivity. Qed.

(** C10: [prepend0x] is idempotent on every string. *)
Theorem prepend0x_idempotent (s : string) :
  prepend0x (prepend0x s) = prepend0x s.
Proof.
  unfold prepend0x at 1. rewrite prepend0x_startsWith. reflexivity.
Qed.

End AddressHelpers.

(** ** Numbers: conversion of integers and [Math.ceil] *)

Section Numbers.

Lemma digits2_pos_lower (m : positive) :
  2 ^ (Zpos (digits2_pos m) - 1) <= Zpos m.
Proof.
  assert (Hs : digits2_pos m = Pos.size m) by (induction m; simpl; congruence).
  rewrite Hs. pose proof (Pos.size_le m) as H.
  apply Pos2Z.pos_le_pos in H. rewrite Pos2Z.inj_pow in H.
  replace (Zpos (Pos.size m)) with (Zpos (Pos.size m) - 1 + 1) in H at 1 by lia.
  rewrite Z.pow_add_r in H by lia. change (2 ^ 1) with 2 in H.
  rewrite (Pos2Z.inj_xO m) in H. lia.
Qed.

Lemma shr_1_m (mrs : shr_record) :
  0 <= shr_m mrs -> shr_m (shr_1 mrs) = shr_m mrs / 2.
Proof.
  destruct mrs as [m r s]. simpl. intros H.
  destruct m as [|[p|p|]|]; simpl; try reflexivity; try lia.
  - rewrite (Pos2Z.inj_xI p). apply Z.div_unique with 1; lia.
  - rewrite (Pos2Z.inj_xO p). apply Z.div_unique with 0; lia.
Qed.

Lemma iter_pos_shr_1 (p : positive) :
  forall mrs, 0 <= shr_m mrs ->
              shr_m (iter_pos shr_1 p mrs) = shr_m mrs / 2 ^ Zpos p.
Proof.
  induction p as [p IH|p IH|]; intros mrs H; simpl iter_pos.
  - assert (H1 : 0 <= shr_m (shr_1 mrs))
      by (rewrite shr_1_m by assumption; apply Z.div_pos; lia).
    assert (H2 : 0 <= shr_m (iter_pos shr_1 p (shr_1 mrs)))
      by (rewrite IH by assumption; apply Z.div_pos; [|apply Z.pow_pos_nonneg]; lia).
    rewrite IH, IH, shr_1_m by assumption.
    rewrite !Z.div_div by (try apply Z.pow_pos_nonneg; lia).
    f_equal. rewrite (Pos2Z.inj_xI p).
    replace (2 * Zpos p + 1) with (1 + Zpos p + Zpos p) by lia.
    rewrite !Z.pow_add_r by lia. change (2 ^ 1) with 2. ring.
  - assert (H2 : 0 <= shr_m (iter_pos shr_1 p mrs))
      by (rewrite IH by assumption; apply Z.div_pos; [|apply Z.pow_pos_nonneg]; lia).
    rewrite IH, IH by assumption.
    rewrite Z.div_div by (try apply Z.pow_pos_nonneg; lia).
    f_equal. rewrite (Pos2Z.inj_xO p).
    replace (2 * Zpos p) with (Zpos p + Zpos p) by lia.
    rewrite Z.pow_add_r by lia. reflexivity.
  - rewrite shr_1_m by assumption. reflexivity.
Qed.

Lemma shr_record_of_loc_m (m : Z) (l : location) :
  shr_m (shr_record_of_loc m l) = m.
Proof. destruct l as [|[]]; reflexivity. Qed.

Lemma shr_fexp_positive (m : positive) (e : Z) (l : location) :
  emin prec emax <= e ->
  0 < shr_m (fst (shr_fexp prec emax (Zpos m) e l))
  /\ emin prec emax <= snd (shr_fexp prec emax (Zpos m) e l).
Proof.
  intros He. unfold shr_fexp, shr. simpl Zdigits2.
  set (d := Zpos (digits2_pos m)).
  destruct (fexp prec emax (d + e) - e) as [|p|p] eqn:En; simpl;
    rewrite ?shr_record_of_loc_m; try (split; lia).
  assert (Hp : Zpos p = d - prec) by (unfold fexp in En; lia).
  rewrite iter_pos_shr_1 by (rewrite shr_record_of_loc_m; lia).
  rewrite shr_record_of_loc_m. split; [|lia].
  apply Z.div_str_pos. split; [apply Z.pow_pos_nonneg; lia|].
  pose proof (digits2_pos_lower m) as Hm. fold d in Hm.
  apply Z.le_trans with (2 ^ (d - 1)); [|exact Hm].
  apply Z.pow_le_mono_r; unfold prec in Hp; lia.
Qed.

Lemma round_nearest_even_positive (m : Z) (l : location) :
  0 < m -> 0 < round_nearest_even m l.
Proof.
  intros H. destruct l as [|[]]; simpl; try lia. destruct (Z.even m); lia.
Qed.

Lemma binary_round_aux_truthy (s : bool) (m : positive) (e : Z) (l : location) :
  emin prec emax <= e ->
  truthy (binary_round_aux prec emax s (Zpos m) e l) = true.
Proof.
  intros He. unfold binary_round_aux.
  destruct (shr_fexp_positive m l He) as [H1 H2].
  destruct (shr_fexp prec emax (Zpos m) e l) as [mrs' e']. simpl in H1, H2.
  pose proof (round_nearest_even_positive (loc_of_shr_record mrs') H1) as Hr.
  destruct (round_nearest_even (shr_m mrs') (loc_of_shr_record mrs'))
    as [|m'|m']; try lia.
  destruct (shr_fexp_positive m' loc_Exact H2) as [H3 _].
  destruct (shr_fexp prec emax (Zpos m') e' loc_Exact) as [mrs'' e''].
  simpl in H3. destruct (shr_m mrs''); try lia.
  destruct (e'' <=? emax - prec); reflexivity.
Qed.

Lemma of_Z_truthy (z : Z) : z <> 0 -> truthy (of_Z z) = true.
Proof.
  intros Hz. unfold of_Z, binary_normalize.
  destruct z as [|m|m]; [contradiction| |];
    unfold binary_round, shl_align;
    destruct (fexp prec emax (Zpos (digits2_pos m) + 0) - 0) eqn:En;
    apply binary_round_aux_truthy; unfold fexp, emin, prec, emax in *; lia.
Qed.

Lemma digits2_pos_upper (m : positive) :
  Zpos m < 2 ^ Zpos (digits2_pos m).
Proof.
  assert (Hs : digits2_pos m = Pos.size m) by (induction m; simpl; congruence).
  rewrite Hs. pose proof (Pos.size_gt m) as H.
  apply Pos2Z.pos_lt_pos in H. now rewrite Pos2Z.inj_pow in H.
Qed.

Lemma shr_fexp_bounded (m : positive) (e : Z) (l : location) (k : Z) :
  emin prec emax <= e -> Zpos m < 2 ^ k -> prec <= k ->
  0 < shr_m (fst (shr_fexp prec emax (Zpos m) e l)) < 2 ^ prec
  /\ e <= snd (shr_fexp prec emax (Zpos m) e l) <= e + (k - prec).
Proof.
  intros He Hk Hprec. unfold shr_fexp, shr. simpl Zdigits2.
  pose proof (digits2_pos_lower m) as Hlo.
  pose proof (digits2_pos_upper m) as Hup.
  set (d := Zpos (digits2_pos m)) in *.
  assert (Hdk : d <= k).
  { assert (2 ^ (d - 1) < 2 ^ k) by lia.
    apply Z.pow_lt_mono_r_iff in H; unfold prec in *; lia. }
  destruct (fexp prec emax (d + e) - e) as [|p|p] eqn:En; cbn [fst snd];
    rewrite ?shr_record_of_loc_m.
  - assert (d <= prec) by (unfold fexp in En; lia).
    split; [split; [lia|]|lia].
    apply Z.lt_le_trans with (2 ^ d); [exact Hup|].
    apply Z.pow_le_mono_r; lia.
  - assert (Hp : Zpos p = d - prec) by (unfold fexp in En; lia).
    rewrite iter_pos_shr_1 by (rewrite shr_record_of_loc_m; lia).
    rewrite shr_record_of_loc_m. split; [split|lia].
    + apply Z.div_str_pos. split; [apply Z.pow_pos_nonneg; lia|].
      apply Z.le_trans with (2 ^ (d - 1)); [|exact Hlo].
      apply Z.pow_le_mono_r; unfold prec in Hp; lia.
    + apply Z.div_lt_upper_bound; [apply Z.pow_pos_nonneg; lia|].
      rewrite <- Z.pow_add_r by (unfold prec; lia).
      now replace (Zpos p + prec) with d by lia.
  - assert (d <= prec) by (unfold fexp in En; lia).
    split; [split; [lia|]|lia].
    apply Z.lt_le_trans with (2 ^ d); [exact Hup|].
    apply Z.pow_le_mono_r; lia.
Qed.

Lemma round_nearest_even_upper (m : Z) (l : location) :
  round_nearest_even m l <= m + 1.
Proof. destruct l as [|[]]; simpl; try lia. destruct (Z.even m); lia. Qed.

Lemma binary_round_aux_finite (s : bool) (m : positive) (e : Z)
  (l : location) (k : Z) :
  emin prec emax <= e -> Zpos m < 2 ^ k -> prec <= k ->
  e + (k - prec) + 1 <= emax - prec ->
  isFinite (binary_round_aux prec emax s (Zpos m) e l) = true.
Proof.
  intros He Hk Hprec Hmax. unfold binary_round_aux.
  destruct (@shr_fexp_bounded m e l k He Hk Hprec) as [[H1 H1'] [H2 H2']].
  destruct (shr_fexp prec emax (Zpos m) e l) as [mrs' e'].
  cbn [fst snd] in H1, H1', H2, H2'.
  pose proof (round_nearest_even_positive (loc_of_shr_record mrs') H1) as Hr.
  pose proof (round_nearest_even_upper (shr_m mrs') (loc_of_shr_record mrs'))
    as Hr'.
  destruct (round_nearest_even (shr_m mrs') (loc_of_shr_record mrs'))
    as [|m'|m']; try lia.
  assert (Hk' : Zpos m' < 2 ^ (prec + 1)).
  { rewrite Z.pow_add_r by (unfold prec; lia). change (2 ^ 1) with 2.
    assert (0 < 2 ^ prec) by (apply Z.pow_pos_nonneg; unfold prec; lia).
    lia. }
  assert (He' : emin prec emax <= e') by lia.
  destruct (@shr_fexp_bounded m' e' loc_Exact (prec + 1) He' Hk')
    as [[H3 _] [_ H4]]; [lia|].
  destruct (shr_fexp prec emax (Zpos m') e' loc_Exact) as [mrs'' e''].
  cbn [fst snd] in H3, H4. destruct (shr_m mrs''); try lia.
  assert (Hle : (e'' <=? emax - prec) = true) by (apply Z.leb_le; lia).
  now rewrite Hle.
Qed.

Lemma iter_xO (d m : positive) :
  Zpos (Pos.iter xO m d) = Zpos m * 2 ^ Zpos d.
Proof.
  induction d as [|d IH] using Pos.peano_ind.
  - simpl. rewrite (Pos2Z.inj_xO m). change (2 ^ 1) with 2. lia.
  - rewrite Pos.iter_succ, (Pos2Z.inj_xO (Pos.iter xO m d)), IH.
    rewrite Pos2Z.inj_succ, Z.pow_succ_r by lia. ring.
Qed.

Lemma binary_round_finite (s : bool) (m : positive) :
  Zpos m < 2 ^ 64 -> isFinite (binary_round prec emax s m 0) = true.
Proof.
  intros Hm. unfold binary_round, shl_align.
  pose proof (digits2_pos_lower m) as Hlo.
  pose proof (digits2_pos_upper m) as Hup.
  set (d := Zpos (digits2_pos m)) in *.
  assert (Hd : 1 <= d <= 64).
  { split; [unfold d; lia|].
    assert (2 ^ (d - 1) < 2 ^ 64) by lia.
    apply Z.pow_lt_mono_r_iff in H; lia. }
  destruct (fexp prec emax (d + 0) - 0) as [|p|p] eqn:En.
  - apply binary_round_aux_finite with (k := 64);
      unfold emin, prec, emax; lia.
  - apply binary_round_aux_finite with (k := 64);
      unfold emin, prec, emax; lia.
  - assert (Hp : Zpos p = prec - d)
      by (unfold fexp, emin, prec, emax in En; unfold prec; lia).
    assert (He : fexp prec emax (d + 0) = d - prec)
      by (unfold fexp, emin, prec, emax in *; lia).
    rewrite He. apply binary_round_aux_finite with (k := prec);
      try (unfold emin, prec, emax in *; lia).
    rewrite iter_xO, Hp.
    apply Z.lt_le_trans with (2 ^ d * 2 ^ (prec - d)).
    + apply Z.mul_lt_mono_pos_r; [apply Z.pow_pos_nonneg|]; lia.
    + rewrite <- Z.pow_add_r by lia.
      replace (d + (prec - d)) with prec by lia. lia.
Qed.

Lemma Long_signed_range (l : Long) :
  - 2 ^ 63 <= Long_signed l < 2 ^ 63.
Proof.
  unfold Long_signed.
  pose proof (Z.mod_pos_bound (l + 2 ^ 63) (2 ^ 64)). lia.
Qed.

Lemma Long_signed_id (l : Long) :
  - 2 ^ 63 <= l < 2 ^ 63 -> Long_signed l = l.
Proof.
  intros H. unfold Long_signed. rewrite Z.mod_small; lia.
Qed.

Lemma Long_toNumber_finite (l : Long) : isFinite (Long_toNumber l) = true.
Proof.
  unfold Long_toNumber, of_Z, binary_normalize.
  pose proof (Long_signed_range l) as H.
  destruct (Long_signed l) as [|m|m]; [reflexivity| |];
    apply binary_round_finite; lia.
Qed.

Lemma resolvedCost_of_Z (z : Z) : resolvedCost (Some (of_Z z)) = of_Z z.
Proof.
  unfold resolvedCost. destruct (Z.eq_dec z 0) as [->|Hz]; [reflexivity|].
  now rewrite of_Z_truthy.
Qed.

Lemma resolvedCost_Long (l : Long) :
  resolvedCost (Some (Long_toNumber l)) = Long_toNumber l.
Proof. apply resolvedCost_of_Z. Qed.

Lemma resolvedCost_payment_finite (payment : option Hbar) :
  isFinite
    (resolvedCost
       (option_map (fun h => Long_toNumber (toTinybars h)) payment))
  = true.
Proof.
  destruct payment as [h|]; cbn [option_map]; [|reflexivity].
  rewrite resolvedCost_Long. apply Long_toNumber_finite.
Qed.

Lemma ceil_finite_Qceiling (s : bool) (m : positive) (e : Z) :
  ceil_finite s m e = Qceiling (to_Q s m e).
Proof.
  unfold ceil_finite, to_Q. destruct e as [|p|p].
  - now rewrite Qceiling_Z.
  - now rewrite Qceiling_Z.
  - unfold Qceiling, Qfloor, Qopp. simpl Qnum. simpl Qden.
    now rewrite Pos2Z.inj_pow.
Qed.

End Numbers.

(** ** The helpers on small inputs *)

Example prune0x_prefixed : prune0x "0xabc" = "abc".
Proof. reflexivity. Qed.

Example prune0x_bare : prune0x "abc" = "abc".
Proof. reflexivity. Qed.

Example prepend0x_bare : prepend0x "abc" = "0xabc".
Proof. reflexivity. Qed.

Example prepend0x_prefixed : prepend0x "0xabc" = "0xabc".
Proof. reflexivity. Qed.

Example Buffer_from_hex_pairs :
  Buffer_from_hex "0aff1" = [Byte.x0a; Byte.xff].
Proof. reflexivity. Qed.

Example Math_ceil_half : Math_ceil (div (of_Z 1) (of_Z 2)) = of_Z 1.
Proof. vm_compute. reflexivity. Qed.

Example Math_ceil_minus_half :
  Math_ceil (div (of_Z (-1)) (of_Z 2)) = S754_zero true.
Proof. vm_compute. reflexivity. Qed.

Example Math_ceil_seven_halves : Math_ceil (div (of_Z 7) (of_Z 2)) = of_Z 4.
Proof. vm_compute. reflexivity. Qed.

Example Math_ceil_minus_seven_halves :
  Math_ceil (div (of_Z (-7)) (of_Z 2)) = of_Z (-3).
Proof. vm_compute. reflexivity. Qed.

Example Math_ceil_integral : Math_ceil (of_Z 853) = of_Z 853.
Proof. vm_compute. reflexivity. Qed.

Example Math_ceil_infinity :
  Math_ceil (div (of_Z 1) (of_Z 0)) = S754_infinity false.
Proof. vm_compute. reflexivity. Qed.

Example resolvedCost_absent : resolvedCost None = of_Z 0.
Proof. reflexivity. Qed.

Example resolvedCost_nan : resolvedCost (Some S754_nan) = of_Z 0.
Proof. reflexivity. Qed.

Example executeQuery_unpaid_file_read :
  snd (executeQuery Sample.healthy (newQuery (FileContentsQuery "0.0.111"))
         empty_world)
  = {| histogram := [{| obs_mode := "QUERY";
                        obs_type := "FileContentsQuery";
                        obs_status := Some StatusEnum.Success;
                        obs_value := of_Z 25 |}];
       gauge := [GaugeDec "QUERY" "FileContentsQuery" (Some (of_Z 25))];
       logger := [InfoQueryResponse "FileContentsQuery" 22;
                  TraceQueryCost
                    (Some {| tid_accountId := Sample.operator;
                             validStart := 0 |})
                    (Some {| toTinybars := 25 |})];
       network := [QueryExecute (newQuery (FileContentsQuery "0.0.111"))] |}.
Proof. vm_compute. reflexivity. Qed.

Example Long_toNumber_in_range : Long_toNumber 853000 = of_Z 853000.
Proof. reflexivity. Qed.

Example Long_toNumber_wraps : Long_toNumber (2 ^ 63) = of_Z (- 2 ^ 63).
Proof. reflexivity. Qed.

Example getTinyBarGasFee_healthy :
  fst (getTinyBarGasFee Sample.healthy Sample.constants empty_world)
  = Return (of_Z 72).
Proof. vm_compute. reflexivity. Qed.

Example getTinyBarGasFee_empty_fees :
  fst (getTinyBarGasFee
         (Sample.sdk (Sample.schedules [Sample.entry 84 (Some [])])
            (Return (FunctionResultResponse []))
            (Return (Sample.response true)) (Return (Sample.record 5000)))
         Sample.constants empty_world)
  = Throw (TypeError
             "Cannot read properties of undefined (reading 'servicedata')").
Proof. reflexivity. Qed.

(** ** The executor, run symbolically *)

Section Executor.

Variable clientMain : Sdk.

Lemma extend_nil (w : World) : extend w [] [] [] [] = w.
Proof. destruct w. unfold extend. simpl. now rewrite !app_nil_r. Qed.

Ltac run_method :=
  unfold try_catch, bind, ret, throw, lift, call, log, observe, gauge_op,
    extend; simpl; rewrite ?app_nil_r, <- ?app_assoc; simpl.

Lemma captureMetrics_run mode type st cost w :
  isFinite (resolvedCost cost) = true ->
  captureMetrics mode type st cost w
  = (Return tt,
     extend w
       [{| obs_mode := mode; obs_type := type; obs_status := st;
           obs_value := resolvedCost cost |}]
       [GaugeDec mode type cost] [] []).
Proof.
  intros H. unfold captureMetrics, histogram_observe. rewrite H.
  run_method. reflexivity.
Qed.

Lemma captureMetrics_refused mode type st cost w :
  isFinite (resolvedCost cost) = false ->
  captureMetrics mode type st cost w
  = (Throw (TypeError ("Value is not a valid number: "
                       ++ format_not_finite (resolvedCost cost))), w).
Proof.
  intros H. unfold captureMetrics, histogram_observe. rewrite H.
  reflexivity.
Qed.

Lemma executeQuery_run query w :
  executeQuery clientMain query w
  = match Query_execute clientMain query with
    | Return resp =>
        (Return resp,
         extend w
           [{| obs_mode := queryMode; obs_type := query_name query;
               obs_status := Some StatusEnum.Success;
               obs_value :=
                 resolvedCost
                   (queryPaymentNumber (executed clientMain query)) |}]
           [GaugeDec queryMode (query_name query)
              (queryPaymentNumber (executed clientMain query))]
           [InfoQueryResponse (query_name query) 22;
            TraceQueryCost
              (paymentTransactionId (executed clientMain query))
              (_queryPayment (executed clientMain query))]
           [QueryExecute query])
    | Throw e =>
        (Throw (rethrow e),
         extend w
           [{| obs_mode := queryMode; obs_type := query_name query;
               obs_status := thrown_status e;
               obs_value :=
                 resolvedCost
                   (queryPaymentNumber (executed clientMain query)) |}]
           [GaugeDec queryMode (query_name query)
              (queryPaymentNumber (executed clientMain query))]
           [DebugQueryResponse (query_name query) (statusCode e)]
           [QueryExecute query])
    end.
Proof.
  pose proof (resolvedCost_payment_finite
                (_queryPayment (executed clientMain query))) as Hf.
  fold (queryPaymentNumber (executed clientMain query)) in Hf.
  unfold executeQuery.
  destruct (Query_execute clientMain query) as [resp|e] eqn:E;
    unfold try_catch, bind, call, log; cbn [fst snd];
    rewrite (captureMetrics_run _ _ _ _ _ Hf);
    unfold ret, throw, extend; cbn [histogram gauge logger network];
    rewrite ?app_nil_r, <- ?app_assoc; reflexivity.
Qed.

Lemma executeTransaction_run transaction w :
  executeTransaction clientMain transaction w
  = match Transaction_execute clientMain transaction with
    | Return resp =>
        (Return resp,
         extend w [] []
           [InfoExecuteTransaction (transaction_name transaction);
            InfoTransactionResponse (transaction_name transaction)
              (Some (transactionId resp)) 22]
           [TransactionExecute transaction])
    | Throw e =>
        (Throw (rethrow e),
         extend w [] []
           [InfoExecuteTransaction (transaction_name transaction);
            InfoTransactionResponse (transaction_name transaction) None
              (statusCode e)]
           [TransactionExecute transaction])
    end.
Proof.
  unfold executeTransaction.
  destruct (Transaction_execute clientMain transaction) as [resp|e] eqn:E;
    run_method; rewrite ?E; run_method; reflexivity.
Qed.

Lemma executeGetTransactionRecord_run resp transactionName w :
  executeGetTransactionRecord clientMain resp transactionName w
  = if getRecord resp then
      match TransactionResponse_getRecord clientMain resp with
      | Return rec =>
          (Return rec,
           extend w
             [{| obs_mode := transactionMode; obs_type := transactionName;
                 obs_status := Some (status (receipt rec));
                 obs_value :=
                   resolvedCost
                     (Some (Long_toNumber (toTinybars (transactionFee rec))))
              |}]
             [GaugeDec transactionMode transactionName
                (Some (Long_toNumber (toTinybars (transactionFee rec))))]
             [TraceTransactionCost (transactionId resp) (transactionFee rec)]
             [ResponseGetRecord resp])
      | Throw e =>
          if has_status_code e then
            (Throw (Error (thrown_message e)),
             extend w
               [{| obs_mode := transactionMode; obs_type := transactionName;
                   obs_status := thrown_status e; obs_value := of_Z 0 |}]
               [GaugeDec transactionMode transactionName (Some (of_Z 0))]
               [] [ResponseGetRecord resp])
          else (Throw e, extend w [] [] [] [ResponseGetRecord resp])
      end
    else
      (Throw (Error ("Invalid response format, expected record availability: "
                     ++ JSON_stringify clientMain resp)), w).
Proof.
  unfold executeGetTransactionRecord.
  destruct (getRecord resp).
  - destruct (TransactionResponse_getRecord clientMain resp) as [rec|e] eqn:E;
      unfold try_catch, bind, call, log, ret; cbn [fst snd]; rewrite ?E.
    + rewrite captureMetrics_run
        by (rewrite resolvedCost_Long; apply Long_toNumber_finite).
      unfold extend; cbn [histogram gauge logger network].
      rewrite ?app_nil_r, <- ?app_assoc. reflexivity.
    + destruct (has_status_code e).
      * unfold bind. rewrite captureMetrics_run by reflexivity.
        unfold throw, extend; cbn [histogram gauge logger network].
        rewrite ?app_nil_r, <- ?app_assoc. reflexivity.
      * unfold throw, extend; cbn [histogram gauge logger network].
        now rewrite ?app_nil_r.
  - reflexivity.
Qed.

End Executor.

(** ** Metering *)

Section Metering.

Variable clientMain : Sdk.

Local Open Scope list_scope.

Lemma queryPayment_resolved (query : Query) :
  resolvedCost (queryPaymentNumber query)
  = match _queryPayment query with
    | Some payment => Long_toNumber (toTinybars payment)
    | None => of_Z 0
    end.
Proof.
  unfold queryPaymentNumber.
  destruct (_queryPayment query) as [h|]; cbn [option_map].
  - apply resolvedCost_Long.
  - reflexivity.
Qed.

Lemma executeQuery_histogram query w :
  histogram (snd (executeQuery clientMain query w))
  = histogram w
    ++ [{| obs_mode := queryMode; obs_type := query_name query;
           obs_status :=
             match Query_execute clientMain query with
             | Return _ => Some StatusEnum.Success
             | Throw e => thrown_status e
             end;
           obs_value :=
             resolvedCost (queryPaymentNumber (executed clientMain query))
        |}].
Proof.
  rewrite executeQuery_run.
  destruct (Query_execute clientMain query); reflexivity.
Qed.

Lemma executeQuery_result query w :
  fst (executeQuery clientMain query w)
  = match Query_execute clientMain query with
    | Return resp => Return resp
    | Throw e => Throw (rethrow e)
    end.
Proof.
  rewrite executeQuery_run.
  destruct (Query_execute clientMain query); reflexivity.
Qed.

Lemma executeTransaction_result transaction w :
  fst (executeTransaction clientMain transaction w)
  = match Transaction_execute clientMain transaction with
    | Return resp => Return resp
    | Throw e => Throw (rethrow e)
    end.
Proof.
  rewrite executeTransaction_run.
  destruct (Transaction_execute clientMain transaction); reflexivity.
Qed.

Lemma executeTransaction_histogram transaction w :
  histogram (snd (executeTransaction clientMain transaction w)) = histogram w.
Proof.
  rewrite executeTransaction_run.
  destruct (Transaction_execute clientMain transaction); simpl;
    apply app_nil_r.
Qed.

Lemma executeGetTransactionRecord_histogram resp transactionName w :
  histogram (snd (executeGetTransactionRecord clientMain resp transactionName w))
  = histogram w
    ++ (if getRecord resp then
          match TransactionResponse_getRecord clientMain resp with
          | Return rec =>
              [{| obs_mode := transactionMode; obs_type := transactionName;
                  obs_status := Some (status (receipt rec));
                  obs_value :=
                    Long_toNumber (toTinybars (transactionFee rec)) |}]
          | Throw e =>
              if has_status_code e then
                [{| obs_mode := transactionMode; obs_type := transactionName;
                    obs_status := thrown_status e; obs_value := of_Z 0 |}]
              else []
          end
        else []).
Proof.
  rewrite executeGetTransactionRecord_run. destruct (getRecord resp).
  - destruct (TransactionResponse_getRecord clientMain resp) as [rec|e].
    + cbn [snd histogram extend]. now rewrite resolvedCost_Long.
    + destruct (has_status_code e); reflexivity.
  - simpl. now rewrite app_nil_r.
Qed.

(** C9 (as the code has it): a call of [captureMetrics] makes the histogram
    observe the cost, or 0 when the cost is absent or falsy ([undefined], 0,
    -0, NaN), and then decrements the gauge labelled by mode and type by the
    cost as it was passed, absent or not; for an infinite cost the histogram
    throws and the gauge is not reached. A completed query makes one such
    call, with the payment the query carries once executed; a record
    retrieval makes one when it succeeds or fails with a status of non-zero
    code, and none otherwise; [collect] only sets the gauge. *)
Theorem captureMetrics_histogram_and_gauge
  (mode type : string) (st : option Status)
  (query : Query) (resp : TransactionResponse) (transactionName : string)
  (w : World) :
  captureMetrics mode type st None w
  = (Return tt,
     extend w
       [{| obs_mode := mode; obs_type := type; obs_status := st;
           obs_value := S754_zero false |}]
       [GaugeDec mode type None] [] [])
  /\ (forall s,
        captureMetrics mode type st (Some (S754_zero s)) w
        = (Return tt,
           extend w
             [{| obs_mode := mode; obs_type := type; obs_status := st;
                 obs_value := S754_zero false |}]
             [GaugeDec mode type (Some (S754_zero s))] [] []))
  /\ captureMetrics mode type st (Some S754_nan) w
     = (Return tt,
        extend w
          [{| obs_mode := mode; obs_type := type; obs_status := st;
              obs_value := S754_zero false |}]
          [GaugeDec mode type (Some S754_nan)] [] [])
  /\ (forall s m e,
        captureMetrics mode type st (Some (S754_finite s m e)) w
        = (Return tt,
           extend w
             [{| obs_mode := mode; obs_type := type; obs_status := st;
                 obs_value := S754_finite s m e |}]
             [GaugeDec mode type (Some (S754_finite s m e))] [] []))
  /\ (forall s,
        captureMetrics mode type st (Some (S754_infinity s)) w
        = (Throw (TypeError
                    ("Value is not a valid number: "
                     ++ (if s then "-Infinity" else "Infinity"))%string),
           w))
  /\ gauge (snd (executeQuery clientMain query w))
     = gauge w
       ++ [GaugeDec queryMode (query_name query)
             (option_map (fun payment => Long_toNumber (toTinybars payment))
                (match _queryPayment query with
                 | Some payment => Some payment
                 | None => Query_assessedPayment clientMain query
                 end))]
  /\ gauge (snd (executeGetTransactionRecord clientMain resp transactionName w))
     = gauge w
       ++ (if getRecord resp then
             match TransactionResponse_getRecord clientMain resp with
             | Return rec =>
                 [GaugeDec transactionMode transactionName
                    (Some (Long_toNumber (toTinybars (transactionFee rec))))]
             | Throw e =>
                 if has_status_code e then
                   [GaugeDec transactionMode transactionName (Some (of_Z 0))]
                 else []
             end
           else [])
  /\ exists balance,
       gauge (snd (collect clientMain w)) = gauge w ++ [GaugeSet balance].
Proof.
  split; [now rewrite captureMetrics_run|].
  split; [intros s; now rewrite captureMetrics_run|].
  split; [now rewrite captureMetrics_run|].
  split; [intros s m e; now rewrite captureMetrics_run|].
  split; [intros s; rewrite captureMetrics_refused by reflexivity;
          now destruct s|].
  split; [|split].
  - rewrite executeQuery_run.
    destruct (Query_execute clientMain query); reflexivity.
  - rewrite executeGetTransactionRecord_run. destruct (getRecord resp).
    + destruct (TransactionResponse_getRecord clientMain resp) as [rec|e];
        [reflexivity|].
      destruct (has_status_code e); reflexivity.
    + simpl. now rewrite app_nil_r.
  - unfold collect, try_catch, bind, call, throw, ret, log, gauge_op.
    destruct (operatorAccountId clientMain) as [operator|];
      [|simpl; eexists; reflexivity].
    cbn [fst snd].
    destruct (Query_execute clientMain
                (newQuery (AccountBalanceQuery (Some operator) None)))
      as [[b| | |]|e];
      simpl; eexists; reflexivity.
Qed.

End Metering.

(** ** Failures at the executor *)

Section ExecutorFailures.

Variable clientMain : Sdk.

Local Open Scope list_scope.

(** C3 (as the code has it): when a query fails with a native status, the
    observation recorded carries that status and, as its cost, the payment
    the query object carries after the failed [execute]: the amount that was
    set on it beforehand, else the amount the SDK assessed for it while
    executing, and 0 only when there is neither (or the amount is zero). *)
Theorem executeQuery_failure_observation
  (query : Query) (w : World) (e : Thrown) (st : Status) :
  Query_execute clientMain query = Throw e ->
  thrown_status e = Some st ->
  histogram (snd (executeQuery clientMain query w))
  = histogram w
    ++ [{| obs_mode := queryMode; obs_type := query_name query;
           obs_status := Some st;
           obs_value :=
             match _queryPayment query with
             | Some payment => Long_toNumber (toTinybars payment)
             | None =>
                 match Query_assessedPayment clientMain query with
                 | Some payment => Long_toNumber (toTinybars payment)
                 | None => of_Z 0
                 end
             end |}].
Proof.
  intros He Hst. rewrite executeQuery_histogram, He, Hst.
  rewrite queryPayment_resolved. cbn [executed _queryPayment].
  now destruct (_queryPayment query).
Qed.

(** C4 (as the code has it): a query records exactly one observation,
    whether it succeeds or fails; a transaction submission records none,
    and when it fails with a native status such as
    INSUFFICIENT_PAYER_BALANCE the caller gets an [Error] carrying the
    native message; a record retrieval records exactly one observation when
    it succeeds and when it fails with a native status (that status, cost
    0), and none when it fails without one or when the response has no
    [getRecord]. *)
Theorem observations_per_outcome
  (query : Query) (transaction : Transaction) (resp : TransactionResponse)
  (transactionName : string) (w : World) :
  (exists o, histogram (snd (executeQuery clientMain query w))
             = histogram w ++ [o])
  /\ histogram (snd (executeTransaction clientMain transaction w))
     = histogram w
  /\ (forall class message stack,
        Transaction_execute clientMain transaction
        = Throw (SdkError class (Some StatusEnum.InsufficientPayerBalance)
                   message stack) ->
        fst (executeTransaction clientMain transaction w)
        = Throw (Error message))
  /\ (forall class message stack,
        getRecord resp = true ->
        TransactionResponse_getRecord clientMain resp
        = Throw (SdkError class (Some StatusEnum.InsufficientPayerBalance)
                   message stack) ->
        fst (executeGetTransactionRecord clientMain resp transactionName w)
        = Throw (Error message)
        /\ histogram
             (snd (executeGetTransactionRecord clientMain resp
                     transactionName w))
           = histogram w
             ++ [{| obs_mode := transactionMode;
                    obs_type := transactionName;
                    obs_status := Some StatusEnum.InsufficientPayerBalance;
                    obs_value := of_Z 0 |}])
  /\ histogram
       (snd (executeGetTransactionRecord clientMain resp transactionName w))
     = histogram w
       ++ (if getRecord resp then
             match TransactionResponse_getRecord clientMain resp with
             | Return rec =>
                 [{| obs_mode := transactionMode;
                     obs_type := transactionName;
                     obs_status := Some (status (receipt rec));
                     obs_value :=
                       Long_toNumber (toTinybars (transactionFee rec)) |}]
             | Throw e =>
                 if has_status_code e then
                   [{| obs_mode := transactionMode;
                       obs_type := transactionName;
                       obs_status := thrown_status e;
                       obs_value := of_Z 0 |}]
                 else []
             end
           else []).
Proof.
  split; [|split; [|split; [|split]]].
  - rewrite executeQuery_histogram. eexists. reflexivity.
  - apply executeTransaction_histogram.
  - intros class message stack He.
    rewrite executeTransaction_result, He. reflexivity.
  - intros class message stack Hr He.
    rewrite executeGetTransactionRecord_run, Hr, He. split; reflexivity.
  - apply executeGetTransactionRecord_histogram.
Qed.

(** C5 (as the code has it): a failure of a query or of a transaction that
    carries a status with a non-zero code is rethrown as one [Error] holding
    the native message only; any other failure is rethrown as it was
    caught; a value is returned only when the native call returned it, and
    the operations built on the executor pass its failure on. *)
Theorem executor_rethrows
  (query : Query) (transaction : Transaction) (w : World) :
  fst (executeQuery clientMain query w)
  = match Query_execute clientMain query with
    | Return resp => Return resp
    | Throw e =>
        Throw (if has_status_code e then Error (thrown_message e) else e)
    end
  /\ fst (executeTransaction clientMain transaction w)
     = match Transaction_execute clientMain transaction with
       | Return resp => Return resp
       | Throw e =>
           Throw (if has_status_code e then Error (thrown_message e) else e)
       end
  /\ (forall address,
        fst (getFileIdBytes clientMain address w)
        = fst (executeQuery clientMain
                 (newQuery (FileContentsQuery address)) w))
  /\ (forall transactionBuffer,
        fst (submitEthereumTransaction clientMain transactionBuffer w)
        = fst (executeTransaction clientMain
                 (EthereumTransaction transactionBuffer) w))
  /\ (forall constants e,
        Query_execute clientMain (feeScheduleQuery constants) = Throw e ->
        fst (getTinyBarGasFee clientMain constants w) = Throw (rethrow e))
  /\ (forall account id e,
        AccountId_fromString clientMain account = Return id ->
        Query_execute clientMain
          (newQuery (AccountBalanceQuery (Some id) None)) = Throw e ->
        fst (getAccountBalance clientMain account w) = Throw (rethrow e)).
Proof.
  split; [apply executeQuery_result|].
  split; [apply executeTransaction_result|].
  split; [reflexivity|]. split; [reflexivity|]. split.
  - intros constants e He.
    unfold getTinyBarGasFee, getFeeSchedule, getFileIdBytes, bind at 1 2.
    rewrite executeQuery_run. fold (feeScheduleQuery constants).
    rewrite He. reflexivity.
  - intros account id e Hid He. unfold getAccountBalance, bind, lift.
    rewrite Hid, executeQuery_run, He. reflexivity.
Qed.

(** C8: a record retrieval that succeeds records one TRANSACTION
    observation, with the status of the record's receipt and the record's
    fee; a response without [getRecord] fails with the invalid-response
    error before any call to the network and without any observation, which
    sets it apart from a failure reported by the network. *)
Theorem executeGetTransactionRecord_metering
  (resp : TransactionResponse) (transactionName : string) (w : World) :
  (forall rec,
     getRecord resp = true ->
     TransactionResponse_getRecord clientMain resp = Return rec ->
     executeGetTransactionRecord clientMain resp transactionName w
     = (Return rec,
        extend w
          [{| obs_mode := transactionMode; obs_type := transactionName;
              obs_status := Some (status (receipt rec));
              obs_value := Long_toNumber (toTinybars (transactionFee rec)) |}]
          [GaugeDec transactionMode transactionName
             (Some (Long_toNumber (toTinybars (transactionFee rec))))]
          [TraceTransactionCost (transactionId resp) (transactionFee rec)]
          [ResponseGetRecord resp]))
  /\ (getRecord resp = false ->
      executeGetTransactionRecord clientMain resp transactionName w
      = (Throw (Error
                  ("Invalid response format, expected record availability: "
                   ++ JSON_stringify clientMain resp)%string), w))
  /\ (forall e,
        getRecord resp = true ->
        TransactionResponse_getRecord clientMain resp = Throw e ->
        network
          (snd (executeGetTransactionRecord clientMain resp transactionName w))
        = network w ++ [ResponseGetRecord resp]
        /\ snd (executeGetTransactionRecord clientMain resp transactionName w)
           <> w
        /\ (has_status_code e = true ->
            executeGetTransactionRecord clientMain resp transactionName w
            = (Throw (Error (thrown_message e)),
               extend w
                 [{| obs_mode := transactionMode;
                     obs_type := transactionName;
                     obs_status := thrown_status e;
                     obs_value := of_Z 0 |}]
                 [GaugeDec transactionMode transactionName (Some (of_Z 0))]
                 [] [ResponseGetRecord resp]))).
Proof.
  split; [|split].
  - intros rec Hr He. rewrite executeGetTransactionRecord_run, Hr, He.
    unfold Long_toNumber. now rewrite resolvedCost_of_Z.
  - intros Hr. now rewrite executeGetTransactionRecord_run, Hr.
  - intros e Hr He. rewrite executeGetTransactionRecord_run, Hr, He.
    assert (Hn : network
                   (snd (if has_status_code e
                         then (Throw (Error (thrown_message e)),
                               extend w
                                 [{| obs_mode := transactionMode;
                                     obs_type := transactionName;
                                     obs_status := thrown_status e;
                                     obs_value := of_Z 0 |}]
                                 [GaugeDec transactionMode transactionName
                                    (Some (of_Z 0))]
                                 [] [ResponseGetRecord resp])
                         else (@Throw TransactionRecord e,
                               extend w [] [] [] [ResponseGetRecord resp])))
                 = network w ++ [ResponseGetRecord resp])
      by (destruct (has_status_code e); reflexivity).
    split; [exact Hn|]. split.
    + intros Hw. rewrite Hw in Hn. apply (f_equal (@length NetCall)) in Hn.
      rewrite length_app in Hn. simpl in Hn. lia.
    + intros Hs. now rewrite Hs.
Qed.

End ExecutorFailures.

(** ** The executor on concrete nodes *)

Lemma executeQuery_failure_observation_witness :
  Query_execute (Sample.failing (Some StatusEnum.InsufficientPayerBalance))
    Sample.paidCall
  = Throw (Sample.failure (Some StatusEnum.InsufficientPayerBalance))
  /\ histogram
       (snd (executeQuery
               (Sample.failing (Some StatusEnum.InsufficientPayerBalance))
               Sample.paidCall empty_world))
     = [{| obs_mode := "QUERY"; obs_type := "ContractCallQuery";
           obs_status := Some StatusEnum.InsufficientPayerBalance;
           obs_value := Long_toNumber 100 |}].
Proof.
  split; [reflexivity|].
  apply (@executeQuery_failure_observation
           (Sample.failing (Some StatusEnum.InsufficientPayerBalance))
           Sample.paidCall empty_world
           (Sample.failure (Some StatusEnum.InsufficientPayerBalance))
           StatusEnum.InsufficientPayerBalance);
    reflexivity.
Defined.

(** C3, as stated, fails: a contract call whose cost estimation returned 100
    tinybars and whose execution then fails is observed with cost 100. *)
Lemma executeQuery_failure_cost_counterexample :
  exists o,
    histogram
      (snd (submitContractCallQuery
              (Sample.failing (Some StatusEnum.InsufficientPayerBalance))
              "0x00000000000000000000000000000000000003e8" "0x"
              (of_Z 30000) empty_world))
    = [o]
    /\ obs_status o = Some StatusEnum.InsufficientPayerBalance
    /\ obs_value o = of_Z 100
    /\ obs_value o <> of_Z 0.
Proof.
  eexists. split; [vm_compute; reflexivity|].
  split; [reflexivity|]. split; [reflexivity|]. vm_compute. discriminate.
Qed.

(** A failure without a status is observed without one: the code of
    [Status.Unknown] appears in the log line only. *)
Remark executeQuery_failure_without_status :
  histogram (snd (executeQuery (Sample.failing None) Sample.paidCall
                    empty_world))
  = [{| obs_mode := "QUERY"; obs_type := "ContractCallQuery";
        obs_status := None; obs_value := of_Z 100 |}]
  /\ logger (snd (executeQuery (Sample.failing None) Sample.paidCall
                    empty_world))
     = [DebugQueryResponse "ContractCallQuery" 21].
Proof. split; reflexivity. Qed.

(** C4, as stated, fails: a submission rejected with
    INSUFFICIENT_PAYER_BALANCE throws to the caller and leaves the histogram
    without any observation. *)
Lemma executeTransaction_failure_counterexample :
  submitEthereumTransaction
    (Sample.failing (Some StatusEnum.InsufficientPayerBalance)) []
    empty_world
  = (Throw (Error "transaction failed precheck"),
     {| histogram := []; gauge := [];
        logger := [InfoExecuteTransaction "EthereumTransaction";
                   InfoTransactionResponse "EthereumTransaction" None 10];
        network := [TransactionExecute (EthereumTransaction [])] |})
  /\ length
       (histogram
          (snd (submitEthereumTransaction
                  (Sample.failing (Some StatusEnum.InsufficientPayerBalance))
                  [] empty_world)))
     <> 1%nat.
Proof. split; [reflexivity|]. vm_compute. discriminate. Qed.

Lemma observations_per_outcome_witness :
  fst (executeTransaction
         (Sample.failing (Some StatusEnum.InsufficientPayerBalance))
         (EthereumTransaction []) empty_world)
  = Throw (Error "transaction failed precheck")
  /\ histogram
       (snd (executeGetTransactionRecord
               (Sample.failing (Some StatusEnum.InsufficientPayerBalance))
               (Sample.response true) "EthereumTransaction" empty_world))
     = [{| obs_mode := "TRANSACTION"; obs_type := "EthereumTransaction";
           obs_status := Some StatusEnum.InsufficientPayerBalance;
           obs_value := of_Z 0 |}].
Proof.
  destruct (observations_per_outcome
              (Sample.failing (Some StatusEnum.InsufficientPayerBalance))
              Sample.paidCall (EthereumTransaction []) (Sample.response true)
              "EthereumTransaction" empty_world)
    as (_ & _ & Hsubmit & Hrecord & _).
  split.
  - apply (Hsubmit "PrecheckStatusError" "transaction failed precheck"
             "PrecheckStatusError: transaction failed precheck at execute").
    reflexivity.
  - apply (Hrecord "PrecheckStatusError" "transaction failed precheck"
             "PrecheckStatusError: transaction failed precheck at execute");
      reflexivity.
Defined.

(** C5, as stated, fails: a failure that carries no status reaches the
    caller as the SDK threw it, class and stack included. *)
Lemma executeQuery_rethrow_counterexample :
  fst (getAccountBalance (Sample.failing None) "0.0.1234" empty_world)
  = Throw (SdkError "PrecheckStatusError" None "transaction failed precheck"
             "PrecheckStatusError: transaction failed precheck at execute")
  /\ fst (getAccountBalance (Sample.failing None) "0.0.1234" empty_world)
     <> Throw (Error "transaction failed precheck").
Proof. split; [reflexivity|]. vm_compute. discriminate. Qed.

Lemma executor_rethrows_witness :
  fst (getTinyBarGasFee
         (Sample.unreachable (Some StatusEnum.InsufficientPayerBalance))
         Sample.constants empty_world)
  = Throw (Error "transaction failed precheck")
  /\ fst (getAccountBalance
            (Sample.failing (Some StatusEnum.InsufficientPayerBalance))
            "0.0.1234" empty_world)
     = Throw (Error "transaction failed precheck").
Proof.
  split.
  - destruct (executor_rethrows
                (Sample.unreachable (Some StatusEnum.InsufficientPayerBalance))
                Sample.paidCall (EthereumTransaction []) empty_world)
      as (_ & _ & _ & _ & Hfee & _).
    apply (Hfee Sample.constants
             (Sample.failure (Some StatusEnum.InsufficientPayerBalance))).
    reflexivity.
  - destruct (executor_rethrows
              (Sample.failing (Some StatusEnum.InsufficientPayerBalance))
              Sample.paidCall (EthereumTransaction []) empty_world)
    as (_ & _ & _ & _ & _ & Hbalance).
  apply (Hbalance "0.0.1234" Sample.operator
           (Sample.failure (Some StatusEnum.InsufficientPayerBalance)));
    reflexivity.
Defined.

Lemma executeGetTransactionRecord_metering_witness :
  executeGetTransactionRecord Sample.healthy (Sample.response true)
    "EthereumTransaction" empty_world
  = (Return (Sample.record 5000),
     {| histogram := [{| obs_mode := "TRANSACTION";
                         obs_type := "EthereumTransaction";
                         obs_status := Some StatusEnum.Success;
                         obs_value := Long_toNumber 5000 |}];
        gauge := [GaugeDec "TRANSACTION" "EthereumTransaction"
                    (Some (Long_toNumber 5000))];
        logger := [TraceTransactionCost
                     (transactionId (Sample.response true))
                     {| toTinybars := 5000 |}];
        network := [ResponseGetRecord (Sample.response true)] |})
  /\ executeGetTransactionRecord Sample.healthy (Sample.response false)
       "EthereumTransaction" empty_world
     = (Throw (Error
                 "Invalid response format, expected record availability: {}"),
        empty_world)
  /\ executeGetTransactionRecord
       (Sample.failing (Some StatusEnum.InsufficientPayerBalance))
       (Sample.response true) "EthereumTransaction" empty_world
     = (Throw (Error "transaction failed precheck"),
        {| histogram := [{| obs_mode := "TRANSACTION";
                            obs_type := "EthereumTransaction";
                            obs_status :=
                              Some StatusEnum.InsufficientPayerBalance;
                            obs_value := of_Z 0 |}];
           gauge := [GaugeDec "TRANSACTION" "EthereumTransaction"
                       (Some (of_Z 0))];
           logger := [];
           network := [ResponseGetRecord (Sample.response true)] |}).
Proof.
  split; [|split].
  - apply (proj1 (executeGetTransactionRecord_metering Sample.healthy
                    (Sample.response true) "EthereumTransaction" empty_world)
             (Sample.record 5000)); reflexivity.
  - apply (proj1 (proj2 (executeGetTransactionRecord_metering Sample.healthy
                           (Sample.response false) "EthereumTransaction"
                           empty_world))); reflexivity.
  - apply (proj2 (proj2 (executeGetTransactionRecord_metering
                           (Sample.failing
                              (Some StatusEnum.InsufficientPayerBalance))
                           (Sample.response true) "EthereumTransaction"
                           empty_world))
             (Sample.failure (Some StatusEnum.InsufficientPayerBalance)));
      reflexivity.
Defined.

(** ** The adapter operations *)

Section Adapter.

Variable clientMain : Sdk.
Variable constants : Constants.

Local Open Scope list_scope.

Lemma fst_bind {A B} (c : M A) (k : A -> M B) (w : World) :
  fst (bind c k w)
  = match fst (c w) with
    | Return a => fst (k a (snd (c w)))
    | Throw e => Throw e
    end.
Proof. unfold bind. destruct (c w) as [[a|e] w']; reflexivity. Qed.

Lemma submitContractCallQuery_run
  (to data : string) (gas : number) (w : World) (contractId : ContractId)
  (cost : Hbar) :
  Query_getCost clientMain (contractCallQueryOf clientMain contractId data gas)
  = Return cost ->
  (if startsWith (prune0x to) "00000000000"
   then ContractId_fromSolidityAddress clientMain (prune0x to)
   else ContractId_fromEvmAddress clientMain 0 0 (prune0x to))
  = Return contractId ->
  let query := contractCallQueryOf clientMain contractId data gas in
  submitContractCallQuery clientMain to data gas w
  = executeQuery clientMain (setQueryPayment cost query)
      (extend w [] [] [] [QueryGetCost query])
  /\ network (snd (submitContractCallQuery clientMain to data gas w))
     = network w ++ [QueryGetCost query;
                     QueryExecute (setQueryPayment cost query)].
Proof.
  intros Hcost Hid query.
  assert (Hrun : submitContractCallQuery clientMain to data gas w
                 = executeQuery clientMain (setQueryPayment cost query)
                     (extend w [] [] [] [QueryGetCost query])).
  { unfold submitContractCallQuery. unfold bind at 1, lift at 1.
    rewrite Hid. fold (contractCallQueryOf clientMain contractId data gas).
    fold query. unfold bind, call. subst query. rewrite Hcost.
    unfold extend. now rewrite !app_nil_r. }
  split; [exact Hrun|].
  rewrite Hrun, executeQuery_run.
  destruct (Query_execute clientMain (setQueryPayment cost query));
    simpl; now rewrite <- app_assoc.
Qed.

Lemma contractCallQueryOf_kind (contractId : ContractId) (data : string)
  (gas : number) :
  kind (contractCallQueryOf clientMain contractId data gas)
  = ContractCallQuery contractId (Buffer_from_hex (prune0x data)) gas.
Proof.
  unfold contractCallQueryOf.
  destruct (operatorAccountId clientMain); reflexivity.
Qed.

(** C7: the contract id comes from the solidity-address form when the
    pruned [to] starts with eleven zeros and from the evm-address form
    otherwise; in both branches the cost is asked of the network first and
    the query then executed carries that cost as its payment. *)
Theorem submitContractCallQuery_resolution_and_payment
  (to data : string) (gas : number) (w : World) (contractId : ContractId)
  (cost : Hbar) :
  let query := contractCallQueryOf clientMain contractId data gas in
  let paid :=
    {| kind := ContractCallQuery contractId (Buffer_from_hex (prune0x data))
                 gas;
       paymentTransactionId := paymentTransactionId query;
       _queryPayment := Some cost |} in
  Query_getCost clientMain query = Return cost ->
  (startsWith (prune0x to) "00000000000" = true ->
   ContractId_fromSolidityAddress clientMain (prune0x to) = Return contractId ->
   network (snd (submitContractCallQuery clientMain to data gas w))
   = network w ++ [QueryGetCost query; QueryExecute paid]
   /\ fst (submitContractCallQuery clientMain to data gas w)
      = match Query_execute clientMain paid with
        | Return resp => Return resp
        | Throw e => Throw (rethrow e)
        end)
  /\ (startsWith (prune0x to) "00000000000" = false ->
      ContractId_fromEvmAddress clientMain 0 0 (prune0x to)
      = Return contractId ->
      network (snd (submitContractCallQuery clientMain to data gas w))
      = network w ++ [QueryGetCost query; QueryExecute paid]
      /\ fst (submitContractCallQuery clientMain to data gas w)
         = match Query_execute clientMain paid with
           | Return resp => Return resp
           | Throw e => Throw (rethrow e)
           end).
Proof.
  intros query paid Hcost.
  assert (Hpaid : setQueryPayment cost query = paid)
    by (unfold setQueryPayment, paid, query;
        now rewrite contractCallQueryOf_kind).
  split; intros Hprefix Hid.
  - destruct (@submitContractCallQuery_run to data gas w contractId cost Hcost)
      as [Hrun Hnet]; [now rewrite Hprefix|].
    fold query in Hrun, Hnet. rewrite Hpaid in Hrun, Hnet.
    split; [exact Hnet|]. rewrite Hrun. apply executeQuery_result.
  - destruct (@submitContractCallQuery_run to data gas w contractId cost Hcost)
      as [Hrun Hnet]; [now rewrite Hprefix|].
    fold query in Hrun, Hnet. rewrite Hpaid in Hrun, Hnet.
    split; [exact Hnet|]. rewrite Hrun. apply executeQuery_result.
Qed.

Lemma getFeeSchedule_result (w : World) (bytes : Response) :
  Query_execute clientMain (feeScheduleQuery constants) = Return bytes ->
  fst (getFeeSchedule clientMain constants w)
  = FeeSchedules_fromBytes clientMain bytes.
Proof.
  intros Hq. unfold getFeeSchedule, getFileIdBytes.
  rewrite fst_bind, executeQuery_result.
  fold (feeScheduleQuery constants). now rewrite Hq.
Qed.

Lemma getExchangeRate_result (w : World) (bytes : Response) :
  Query_execute clientMain (exchangeRateQuery constants) = Return bytes ->
  fst (getExchangeRate clientMain constants w)
  = ExchangeRates_fromBytes clientMain bytes.
Proof.
  intros Hq. unfold getExchangeRate, getFileIdBytes.
  rewrite fst_bind, executeQuery_result.
  fold (exchangeRateQuery constants). now rewrite Hq.
Qed.

Lemma selected_false_skip (s : TransactionFeeSchedule)
  (rest : list TransactionFeeSchedule) :
  selected constants s = false ->
  getTinyBarGasFee_loop clientMain constants (s :: rest)
  = getTinyBarGasFee_loop clientMain constants rest.
Proof.
  unfold selected. simpl.
  destruct (is_eth_functionality constants s), (fees s);
    simpl; congruence.
Qed.

Lemma loop_skips (before after : list TransactionFeeSchedule) :
  (forall s, In s before -> selected constants s = false) ->
  getTinyBarGasFee_loop clientMain constants (before ++ after)
  = getTinyBarGasFee_loop clientMain constants after.
Proof.
  induction before as [|s before IH]; intros H; [reflexivity|].
  rewrite <- app_comm_cons, selected_false_skip by (apply H; now left).
  apply IH. intros s' Hs'. apply H. now right.
Qed.

Lemma loop_not_found (schedules : list TransactionFeeSchedule) (w : World) :
  (forall s, In s schedules -> selected constants s = false) ->
  getTinyBarGasFee_loop clientMain constants schedules w
  = (Throw (Error (string_of_Z (ETH_FUNCTIONALITY_CODE constants)
                   ++ " code not found in feeSchedule")%string), w).
Proof.
  intros H. rewrite <- (app_nil_r schedules), loop_skips by exact H.
  reflexivity.
Qed.

(** C1 (as the code has it): once the fee schedule is fetched and parsed,
    [getTinyBarGasFee] throws the invalid-format error when the schedule has
    no [current] section (or that section has no table), and the not-found
    error when no entry of the table has the contract-call code together
    with a [fees] list; but when the first such entry has, in its first fee
    data, no service component or no [contractTransactionGas], no not-found
    error is thrown: the exchange rate is fetched, its failure (of the query
    or of the parsing) is the outcome if it fails, and otherwise the
    configured [DEFAULT_TINY_BAR_GAS] is returned. *)
Theorem getTinyBarGasFee_missing_entries
  (w : World) (bytes : Response) (feeSchedules : FeeSchedules) :
  Query_execute clientMain (feeScheduleQuery constants) = Return bytes ->
  FeeSchedules_fromBytes clientMain bytes = Return feeSchedules ->
  ((current feeSchedules = None
    \/ exists cur, current feeSchedules = Some cur
                   /\ transactionFeeSchedule cur = None) ->
   fst (getTinyBarGasFee clientMain constants w)
   = Throw (Error "Invalid FeeSchedules proto format"))
  /\ (forall cur schedules,
        current feeSchedules = Some cur ->
        transactionFeeSchedule cur = Some schedules ->
        (forall s, In s schedules -> selected constants s = false) ->
        fst (getTinyBarGasFee clientMain constants w)
        = Throw (Error (string_of_Z (ETH_FUNCTIONALITY_CODE constants)
                        ++ " code not found in feeSchedule")%string))
  /\ (forall cur before s after fee0 others,
        current feeSchedules = Some cur ->
        transactionFeeSchedule cur = Some (before ++ s :: after) ->
        (forall s', In s' before -> selected constants s' = false) ->
        is_eth_functionality constants s = true ->
        fees s = Some (fee0 :: others) ->
        (servicedata fee0 = None
         \/ exists fc, servicedata fee0 = Some fc
                       /\ contractTransactionGas fc = None) ->
        fst (getTinyBarGasFee clientMain constants w)
        = match Query_execute clientMain (exchangeRateQuery constants) with
          | Throw e => Throw (rethrow e)
          | Return rateBytes =>
              match ExchangeRates_fromBytes clientMain rateBytes with
              | Throw e => Throw e
              | Return _ => Return (DEFAULT_TINY_BAR_GAS constants)
              end
          end).
Proof.
  intros Hq Hp.
  assert (Hfs : forall k : FeeSchedules -> M number,
             fst (bind (getFeeSchedule clientMain constants) k w)
             = fst (k feeSchedules
                      (snd (getFeeSchedule clientMain constants w)))).
  { intros k. rewrite fst_bind, (getFeeSchedule_result w Hq), Hp.
    reflexivity. }
  unfold getTinyBarGasFee. rewrite Hfs. split; [|split].
  - intros [Hc|(cur & Hc & Ht)]; rewrite Hc; [reflexivity|].
    rewrite Ht. reflexivity.
  - intros cur schedules Hc Ht Hs. rewrite Hc, Ht.
    now rewrite loop_not_found.
  - intros cur before s after fee0 others
      Hc Ht Hbefore Heth Hfees Hmissing.
    rewrite Hc, Ht, loop_skips by exact Hbefore.
    simpl. rewrite Heth, Hfees, fst_bind.
    unfold getExchangeRate, getFileIdBytes at 1.
    rewrite fst_bind, executeQuery_result.
    fold (exchangeRateQuery constants).
    destruct (Query_execute clientMain (exchangeRateQuery constants))
      as [rateBytes|e]; [|reflexivity].
    unfold lift at 1. cbn [fst].
    destruct (ExchangeRates_fromBytes clientMain rateBytes) as [rates|e];
      [|reflexivity].
    cbn [fst ret]. unfold convertGasPriceToTinyBars.
    destruct Hmissing as [->|(fc & -> & ->)]; reflexivity.
Qed.

(** C2 (as the code has it): for a fee component with a defined
    [contractTransactionGas] and any current rate, the gas price is
    [Math.ceil] of the binary64 value of [(gas / 1000) * (hbars / cents)]:
    the least integer not below that value when it is finite with a negative
    exponent, and that value itself otherwise. For 853000 and the rate
    1 / 12 it is 72, which is also the ceiling of the exact product; and it
    depends on nothing but the gas component and the current rate. *)
Theorem convertGasPriceToTinyBars_formula
  (feeComponents : FeeComponents) (exchangeRates : ExchangeRates)
  (gas : Long) :
  contractTransactionGas feeComponents = Some gas ->
  let product :=
    mul (div (Long_toNumber gas) (of_Z 1000))
        (div (rate_hbars (currentRate exchangeRates))
             (rate_cents (currentRate exchangeRates))) in
  convertGasPriceToTinyBars constants (Some feeComponents) exchangeRates
  = Math_ceil product
  /\ (forall s m p,
        product = S754_finite s m (Zneg p) ->
        convertGasPriceToTinyBars constants (Some feeComponents)
          exchangeRates
        = match Qceiling (to_Q s m (Zneg p)) with
          | 0 => S754_zero s
          | n => of_Z n
          end)
  /\ ((forall s m p, product <> S754_finite s m (Zneg p)) ->
      convertGasPriceToTinyBars constants (Some feeComponents) exchangeRates
      = product)
  /\ (gas = 853000 ->
      currentRate exchangeRates
      = {| rate_hbars := of_Z 1; rate_cents := of_Z 12 |} ->
      convertGasPriceToTinyBars constants (Some feeComponents) exchangeRates
      = of_Z 72
      /\ Qceiling ((853000 # 1000) * (1 # 12)) = 72)
  /\ (forall constants' feeComponents' exchangeRates',
        contractTransactionGas feeComponents' = Some gas ->
        currentRate exchangeRates' = currentRate exchangeRates ->
        convertGasPriceToTinyBars constants' (Some feeComponents')
          exchangeRates'
        = convertGasPriceToTinyBars constants (Some feeComponents)
            exchangeRates).
Proof.
  intros Hgas product.
  assert (Heq : convertGasPriceToTinyBars constants (Some feeComponents)
                  exchangeRates = Math_ceil product)
    by (unfold convertGasPriceToTinyBars; now rewrite Hgas).
  split; [exact Heq|]. split; [|split; [|split]].
  - intros s m p Hp. rewrite Heq, Hp. unfold Math_ceil.
    now rewrite ceil_finite_Qceiling.
  - intros Hn. rewrite Heq. unfold Math_ceil.
    destruct product as [| | |s m [|p|p]]; try reflexivity.
    now elim (Hn s m p).
  - intros -> Hrate. split; [|reflexivity].
    rewrite Heq. subst product. rewrite Hrate.
    vm_compute. reflexivity.
  - intros constants' feeComponents' exchangeRates' Hgas' Hrate.
    rewrite Heq. unfold convertGasPriceToTinyBars.
    rewrite Hgas', Hrate. reflexivity.
Qed.

End Adapter.

(** ** The adapter on concrete nodes *)

Lemma submitContractCallQuery_resolution_and_payment_witness :
  (let query :=
     contractCallQueryOf Sample.healthy Sample.numbered "0x" (of_Z 30000) in
   network
     (snd (submitContractCallQuery Sample.healthy
             "0x00000000000000000000000000000000000003e8" "0x" (of_Z 30000)
             empty_world))
   = [QueryGetCost query;
      QueryExecute
        {| kind := ContractCallQuery Sample.numbered [] (of_Z 30000);
           paymentTransactionId := paymentTransactionId query;
           _queryPayment := Some {| toTinybars := 100 |} |}])
  /\ (let query :=
        contractCallQueryOf Sample.healthy
          (Sample.contract "5b38da6a701c568545dcfcb03fcb875f56beddc4")
          "0x" (of_Z 30000) in
      network
        (snd (submitContractCallQuery Sample.healthy
                "0x5b38da6a701c568545dcfcb03fcb875f56beddc4" "0x"
                (of_Z 30000) empty_world))
      = [QueryGetCost query;
         QueryExecute
           {| kind :=
                ContractCallQuery
                  (Sample.contract "5b38da6a701c568545dcfcb03fcb875f56beddc4")
                  [] (of_Z 30000);
              paymentTransactionId := paymentTransactionId query;
              _queryPayment := Some {| toTinybars := 100 |} |}]).
Proof.
  split.
  - apply (proj1 (@submitContractCallQuery_resolution_and_payment
                    Sample.healthy
                    "0x00000000000000000000000000000000000003e8" "0x"
                    (of_Z 30000) empty_world Sample.numbered
                    {| toTinybars := 100 |} eq_refl)); reflexivity.
  - apply (proj2 (@submitContractCallQuery_resolution_and_payment
                    Sample.healthy
                    "0x5b38da6a701c568545dcfcb03fcb875f56beddc4" "0x"
                    (of_Z 30000) empty_world
                    (Sample.contract
                       "5b38da6a701c568545dcfcb03fcb875f56beddc4")
                    {| toTinybars := 100 |} eq_refl)); reflexivity.
Defined.

(** C1, as stated, fails: with the contract-call entry present but its first
    fee data without a service component, no error is thrown and the price
    returned is the configured default. *)
Lemma getTinyBarGasFee_default_counterexample :
  fst (getTinyBarGasFee
         (Sample.sdk
            (Sample.schedules [Sample.entry 84 (Some [Sample.feeData None])])
            (Return (FunctionResultResponse []))
            (Return (Sample.response true)) (Return (Sample.record 5000)))
         Sample.constants empty_world)
  = Return (DEFAULT_TINY_BAR_GAS Sample.constants)
  /\ forall message,
       fst (getTinyBarGasFee
              (Sample.sdk
                 (Sample.schedules
                    [Sample.entry 84 (Some [Sample.feeData None])])
                 (Return (FunctionResultResponse []))
                 (Return (Sample.response true))
                 (Return (Sample.record 5000)))
              Sample.constants empty_world)
       <> Throw (Error message).
Proof. split; [reflexivity|]. intros message. vm_compute. discriminate. Qed.

Lemma getTinyBarGasFee_missing_entries_witness :
  fst (getTinyBarGasFee
         (Sample.sdk {| current := None; next := None |}
            (Return (FunctionResultResponse []))
            (Return (Sample.response true)) (Return (Sample.record 5000)))
         Sample.constants empty_world)
  = Throw (Error "Invalid FeeSchedules proto format")
  /\ fst (getTinyBarGasFee
            (Sample.sdk
               (Sample.schedules
                  [Sample.entry 83
                     (Some [Sample.feeData
                              (Some (Sample.components (Some 853000)))]);
                   Sample.entry 84 None])
               (Return (FunctionResultResponse []))
               (Return (Sample.response true)) (Return (Sample.record 5000)))
            Sample.constants empty_world)
     = Throw (Error "84 code not found in feeSchedule")
  /\ fst (getTinyBarGasFee
            (Sample.sdk
               (Sample.schedules
                  [Sample.entry 83 None;
                   Sample.entry 84
                     (Some [Sample.feeData (Some (Sample.components None))])])
               (Return (FunctionResultResponse []))
               (Return (Sample.response true)) (Return (Sample.record 5000)))
            Sample.constants empty_world)
     = Return (of_Z 72)
  /\ fst (getTinyBarGasFee
            (Scenario.ratesDownWith
               (Sample.schedules
                  [Sample.entry 84 (Some [Sample.feeData None])]))
            Sample.constants empty_world)
     = Throw (Error "transaction failed precheck").
Proof.
  split; [|split; [|split]].
  - apply (proj1 (@getTinyBarGasFee_missing_entries
                    (Sample.sdk {| current := None; next := None |}
                       (Return (FunctionResultResponse []))
                       (Return (Sample.response true))
                       (Return (Sample.record 5000)))
                    Sample.constants empty_world (BytesResponse [])
                    {| current := None; next := None |} eq_refl eq_refl)).
    left. reflexivity.
  - apply (proj1 (proj2 (@getTinyBarGasFee_missing_entries
                    (Sample.sdk
                       (Sample.schedules
                          [Sample.entry 83
                             (Some [Sample.feeData
                                      (Some (Sample.components
                                               (Some 853000)))]);
                           Sample.entry 84 None])
                       (Return (FunctionResultResponse []))
                       (Return (Sample.response true))
                       (Return (Sample.record 5000)))
                    Sample.constants empty_world (BytesResponse []) _
                    eq_refl eq_refl))
             {| transactionFeeSchedule :=
                  Some [Sample.entry 83
                          (Some [Sample.feeData
                                   (Some (Sample.components (Some 853000)))]);
                        Sample.entry 84 None] |}
             _ eq_refl eq_refl).
    intros s [<-|[<-|[]]]; reflexivity.
  - apply (proj2 (proj2 (@getTinyBarGasFee_missing_entries
                    (Sample.sdk
                       (Sample.schedules
                          [Sample.entry 83 None;
                           Sample.entry 84
                             (Some [Sample.feeData
                                      (Some (Sample.components None))])])
                       (Return (FunctionResultResponse []))
                       (Return (Sample.response true))
                       (Return (Sample.record 5000)))
                    Sample.constants empty_world (BytesResponse []) _
                    eq_refl eq_refl))
             {| transactionFeeSchedule :=
                  Some [Sample.entry 83 None;
                        Sample.entry 84
                          (Some [Sample.feeData
                                   (Some (Sample.components None))])] |}
             [Sample.entry 83 None]
             (Sample.entry 84
                (Some [Sample.feeData (Some (Sample.components None))]))
             [] (Sample.feeData (Some (Sample.components None))) []
             eq_refl eq_refl).
    + intros s [<-|[]]. reflexivity.
    + reflexivity.
    + reflexivity.
    + right. exists (Sample.components None). split; reflexivity.
  - apply (proj2 (proj2 (@getTinyBarGasFee_missing_entries
                    (Scenario.ratesDownWith
                       (Sample.schedules
                          [Sample.entry 84 (Some [Sample.feeData None])]))
                    Sample.constants empty_world (BytesResponse []) _
                    eq_refl eq_refl))
             {| transactionFeeSchedule :=
                  Some [Sample.entry 84 (Some [Sample.feeData None])] |}
             [] (Sample.entry 84 (Some [Sample.feeData None])) []
             (Sample.feeData None) [] eq_refl eq_refl).
    + intros s [].
    + reflexivity.
    + reflexivity.
    + left. reflexivity.
Defined.

Lemma convertGasPriceToTinyBars_formula_witness :
  convertGasPriceToTinyBars Sample.constants
    (Some (Sample.components (Some 853000))) Sample.rates
  = of_Z 72.
Proof.
  apply (proj1 (proj2 (proj2 (proj2
           (@convertGasPriceToTinyBars_formula Sample.constants
              (Sample.components (Some 853000)) Sample.rates 853000
              eq_refl)))));
    reflexivity.
Defined.

(** C2, as stated, fails: the price is the ceiling of the product as
    binary64 arithmetic evaluates it, which is not always the ceiling of the
    product. For a gas component of 7000 and the rate 29 / 7 the price is
    30 where the ceiling is 29; for 670497179243143 and the rate
    7 / 14616243 it is 321114 where the ceiling is 321115. *)
Lemma convertGasPriceToTinyBars_ceiling_counterexample :
  convertGasPriceToTinyBars Sample.constants
    (Some (Sample.components (Some 7000)))
    {| currentRate := {| rate_hbars := of_Z 29; rate_cents := of_Z 7 |};
       nextRate := {| rate_hbars := of_Z 29; rate_cents := of_Z 7 |} |}
  = of_Z 30
  /\ Qceiling ((7000 # 1000) * (29 # 7)) = 29
  /\ convertGasPriceToTinyBars Sample.constants
       (Some (Sample.components (Some 670497179243143)))
       {| currentRate :=
            {| rate_hbars := of_Z 7; rate_cents := of_Z 14616243 |};
          nextRate :=
            {| rate_hbars := of_Z 7; rate_cents := of_Z 14616243 |} |}
     = of_Z 321114
  /\ Qceiling ((670497179243143 # 1000) * (7 # 14616243)) = 321115
  /\ of_Z 30 <> of_Z 29
  /\ of_Z 321114 <> of_Z 321115.
Proof.
  repeat split; try (vm_compute; reflexivity); vm_compute; discriminate.
Qed.

(** C9, as stated, fails: a record retrieval that fails without a status,
    or on a response without [getRecord], makes no call of
    [captureMetrics]: nothing is observed and the gauge is not touched. *)
Lemma captureMetrics_skipped_counterexample :
  executeGetTransactionRecord (Sample.failing None) (Sample.response true)
    "EthereumTransaction" empty_world
  = (Throw (Sample.failure None),
     {| histogram := []; gauge := []; logger := [];
        network := [ResponseGetRecord (Sample.response true)] |})
  /\ executeGetTransactionRecord Sample.healthy (Sample.response false)
       "EthereumTransaction" empty_world
     = (Throw (Error
                 "Invalid response format, expected record availability: {}"),
        {| histogram := []; gauge := []; logger := []; network := [] |}).
Proof. split; reflexivity. Qed.

Lemma captureMetrics_histogram_and_gauge_witness :
  captureMetrics "QUERY" "FileContentsQuery" (Some StatusEnum.Success)
    (Some S754_nan) empty_world
  = (Return tt,
     {| histogram := [{| obs_mode := "QUERY";
                         obs_type := "FileContentsQuery";
                         obs_status := Some StatusEnum.Success;
                         obs_value := of_Z 0 |}];
        gauge := [GaugeDec "QUERY" "FileContentsQuery" (Some S754_nan)];
        logger := []; network := [] |})
  /\ captureMetrics "QUERY" "FileContentsQuery" (Some StatusEnum.Success)
       (Some (S754_infinity false)) empty_world
     = (Throw (TypeError "Value is not a valid number: Infinity"),
        empty_world)
  /\ gauge (snd (executeQuery Sample.healthy
                   (newQuery (FileContentsQuery "0.0.111")) empty_world))
     = [GaugeDec "QUERY" "FileContentsQuery" (Some (Long_toNumber 25))].
Proof.
  destruct (@captureMetrics_histogram_and_gauge Sample.healthy
              "QUERY" "FileContentsQuery" (Some StatusEnum.Success)
              (newQuery (FileContentsQuery "0.0.111"))
              (Sample.response true) "EthereumTransaction" empty_world)
    as (_ & _ & Hnan & _ & Hinf & Hquery & _).
  split; [exact Hnan|]. split; [exact (Hinf false)|exact Hquery].
Defined.

(** * Further properties *)

(** ** The address helpers, composed *)

Section AddressHelpersComposed.

(** X1: on every string, prepending is pruning followed by the prefix:
    [prepend0x s] is ["0x"] followed by [prune0x s]. *)
Theorem prepend0x_as_prune0x (s : string) :
  prepend0x s = "0x" ++ prune0x s.
Proof.
  unfold prepend0x, prune0x. destruct (startsWith s "0x") eqn:E.
  - apply startsWith_0x_inv, E.
  - reflexivity.
Qed.

Lemma prepend0x_twice (s : string) :
  prepend0x (prepend0x s) = prepend0x s.
Proof.
  unfold prepend0x at 1. now rewrite prepend0x_startsWith.
Qed.

Lemma is_address_0x_cons (body : string) :
  is_address ("0x" ++ body) = all_hex body.
Proof. reflexivity. Qed.

Lemma all_hex_is_address (s : string) :
  all_hex s = true -> is_address s = true.
Proof.
  intros H. rewrite is_address_unfold.
  now rewrite (all_hex_not_0x _ H).
Qed.

Lemma address_pruned_bare (x : string) :
  is_address x = true ->
  startsWith (prune0x x) "0x" = false /\ prune0x (prune0x x) = prune0x x.
Proof.
  intros H. pose proof (all_hex_not_0x _ (is_address_pruned _ H)) as Hn.
  split; [exact Hn|]. unfold prune0x at 1. now rewrite Hn.
Qed.

(** X2: on an address string both helpers give address strings again, the
    pruned form carries no prefix, and pruning twice is pruning once. *)
Theorem address_helpers_closed (x : string) :
  is_address x = true ->
  is_address (prune0x x) = true
  /\ is_address (prepend0x x) = true
  /\ startsWith (prune0x x) "0x" = false
  /\ prune0x (prune0x x) = prune0x x.
Proof.
  intros H. pose proof (is_address_pruned _ H) as Hp.
  destruct (address_pruned_bare x H) as [Hn Hpp].
  split; [now apply all_hex_is_address|]. split; [|split].
  - unfold prepend0x, prune0x in *. destruct (startsWith x "0x") eqn:E.
    + exact H.
    + rewrite is_address_0x_cons. exact Hp.
  - exact Hn.
  - exact Hpp.
Qed.

(** X3: [toContractId] and [toAccountId] do not depend on whether the
    address string comes with its prefix: the id is the same for [x], for
    [x] pruned and for [x] prefixed. *)
Theorem id_helpers_ignore_prefix
  (clientMain : Sdk)
  (AccountId_fromEvmAddress : Z -> Z -> string -> Completion AccountId)
  (x : string) :
  is_address x = true ->
  toContractId clientMain (prune0x x) = toContractId clientMain x
  /\ toContractId clientMain (prepend0x x) = toContractId clientMain x
  /\ toAccountId AccountId_fromEvmAddress (prune0x x)
     = toAccountId AccountId_fromEvmAddress x
  /\ toAccountId AccountId_fromEvmAddress (prepend0x x)
     = toAccountId AccountId_fromEvmAddress x.
Proof.
  intros H. destruct (address_pruned_bare x H) as [Hn Hpp].
  unfold toContractId, toAccountId. split; [|split; [|split]].
  - now rewrite (prepend0x_prune0x x Hn).
  - now rewrite prepend0x_twice.
  - now rewrite Hpp.
  - now rewrite prune0x_prepend0x.
Qed.

End AddressHelpersComposed.

Lemma address_helpers_closed_witness :
  is_address "0x00000000000000000000000000000000000003e8" = true
  /\ is_address (prune0x "0x00000000000000000000000000000000000003e8") = true
  /\ is_address (prepend0x "0x00000000000000000000000000000000000003e8")
     = true
  /\ startsWith (prune0x "0x00000000000000000000000000000000000003e8") "0x"
     = false
  /\ prune0x (prune0x "0x00000000000000000000000000000000000003e8")
     = prune0x "0x00000000000000000000000000000000000003e8".
Proof.
  split; [reflexivity|].
  apply (@address_helpers_closed
           "0x00000000000000000000000000000000000003e8").
  reflexivity.
Defined.

Lemma id_helpers_ignore_prefix_witness :
  toContractId Sample.healthy
    (prune0x "0x5b38da6a701c568545dcfcb03fcb875f56beddc4")
  = toContractId Sample.healthy "0x5b38da6a701c568545dcfcb03fcb875f56beddc4"
  /\ toContractId Sample.healthy
       (prepend0x "0x5b38da6a701c568545dcfcb03fcb875f56beddc4")
     = toContractId Sample.healthy
         "0x5b38da6a701c568545dcfcb03fcb875f56beddc4"
  /\ toAccountId (fun _ _ a => Return (Sample.contract a))
       (prune0x "0x5b38da6a701c568545dcfcb03fcb875f56beddc4")
     = toAccountId (fun _ _ a => Return (Sample.contract a))
         "0x5b38da6a701c568545dcfcb03fcb875f56beddc4"
  /\ toAccountId (fun _ _ a => Return (Sample.contract a))
       (prepend0x "0x5b38da6a701c568545dcfcb03fcb875f56beddc4")
     = toAccountId (fun _ _ a => Return (Sample.contract a))
         "0x5b38da6a701c568545dcfcb03fcb875f56beddc4".
Proof.
  apply (@id_helpers_ignore_prefix Sample.healthy
           (fun _ _ a => Return (Sample.contract a))
           "0x5b38da6a701c568545dcfcb03fcb875f56beddc4").
  reflexivity.
Defined.

(** ** The client version *)

Section ClientVersion.

Import Web3Impl.

(** X4: [clientVersion] never gives the empty string its [?? ''] names:
    the result always starts with [relay/], and when the package version is
    not set it is [relay/undefined]. *)
Theorem clientVersion_never_empty (npm_package_version : option string) :
  startsWith (clientVersion npm_package_version) "relay/" = true
  /\ clientVersion npm_package_version <> ""
  /\ (npm_package_version = None ->
      clientVersion npm_package_version = "relay/undefined")
  /\ (forall version,
        npm_package_version = Some version ->
        clientVersion npm_package_version = "relay/" ++ version).
Proof.
  unfold clientVersion, nullish_coalesce, plus.
  split; [reflexivity|]. split; [discriminate|].
  split; [now intros ->|]. now intros version ->.
Qed.

End ClientVersion.

Lemma clientVersion_never_empty_witness :
  Web3Impl.clientVersion None = "relay/undefined"
  /\ Web3Impl.clientVersion (Some "0.1.0") = "relay/0.1.0".
Proof.
  split.
  - apply (proj1 (proj2 (proj2 (clientVersion_never_empty None)))).
    reflexivity.
  - apply (proj2 (proj2 (proj2 (clientVersion_never_empty (Some "0.1.0"))))
             "0.1.0").
    reflexivity.
Defined.

(** ** Hexadecimal quantities of the server *)

Section HexQuantities.

Import Server.

Lemma norm_not_nil (d : Hexadecimal.signed_int) :
  Hexadecimal.norm d <> Hexadecimal.Pos Hexadecimal.Nil
  /\ Hexadecimal.norm d <> Hexadecimal.Neg Hexadecimal.Nil.
Proof.
  destruct d as [u|u]; simpl.
  - split; [|discriminate]. unfold Hexadecimal.unorm.
    destruct (Hexadecimal.nzhead u); discriminate.
  - destruct (Hexadecimal.nzhead u); split; discriminate.
Qed.

Lemma toString16_decodes (num : Z) :
  HexadecimalString.NilZero.int_of_string (toString16 num)
  = Some (Z.to_hex_int num).
Proof.
  unfold toString16. apply HexadecimalString.NilZero.isi;
    rewrite <- (HexadecimalZ.of_to num), HexadecimalZ.to_of;
    apply norm_not_nil.
Qed.

Lemma toString16_injective (n m : Z) :
  toString16 n = toString16 m -> n = m.
Proof.
  intros H. apply HexadecimalZ.to_int_inj.
  pose proof (toString16_decodes n) as Hn. rewrite H in Hn.
  rewrite toString16_decodes in Hn. now injection Hn.
Qed.

Lemma all_hex_string_of_uint (d : Hexadecimal.uint) :
  all_hex (HexadecimalString.NilEmpty.string_of_uint d) = true.
Proof. induction d; simpl; trivial. Qed.

Lemma all_hex_toString16 (num : Z) :
  0 <= num -> all_hex (toString16 num) = true.
Proof.
  intros H. unfold toString16. destruct num as [|p|p]; try lia.
  - reflexivity.
  - simpl. unfold HexadecimalString.NilZero.string_of_uint.
    destruct (Pos.to_hex_uint p) eqn:E; try apply all_hex_string_of_uint.
    reflexivity.
Qed.

(** X5: [toHexString] gives different strings for different integers; for
    a non-negative integer the result is an address-shaped string, [0x]
    followed by hexadecimal digits only, which [prune0x] turns back into
    the digits; for a negative integer the minus sign follows the prefix
    and the result is not one. *)
Theorem toHexString_quantities (n m : Z) :
  (toHexString n = toHexString m -> n = m)
  /\ prune0x (toHexString n) = toString16 n
  /\ (0 <= n -> is_address (toHexString n) = true)
  /\ (n < 0 -> is_address (toHexString n) = false).
Proof.
  split; [|split; [|split]].
  - unfold toHexString. intros H. apply toString16_injective.
    simpl in H. now injection H.
  - reflexivity.
  - intros H. unfold toHexString. rewrite is_address_0x_cons.
    now apply all_hex_toString16.
  - intros H. unfold toHexString. rewrite is_address_0x_cons.
    destruct n as [|p|p]; try lia. reflexivity.
Qed.

End HexQuantities.

Lemma toHexString_quantities_witness :
  Server.toHexString 48879 = "0xbeef"
  /\ is_address (Server.toHexString 48879) = true
  /\ is_address (Server.toHexString (-255)) = false.
Proof.
  split; [reflexivity|]. split.
  - apply (proj1 (proj2 (proj2 (toHexString_quantities 48879 0)))). lia.
  - apply (proj2 (proj2 (proj2 (toHexString_quantities (-255) 0)))). lia.
Defined.

(** ** Histogram and gauge stay in step *)

Section InStep.

Local Open Scope list_scope.

Lemma extend_extend (w : World) h1 g1 l1 n1 h2 g2 l2 n2 :
  extend (extend w h1 g1 l1 n1) h2 g2 l2 n2
  = extend w (h1 ++ h2) (g1 ++ g2) (l1 ++ l2) (n1 ++ n2).
Proof. unfold extend. simpl. now rewrite !app_assoc. Qed.

Lemma metered_same {A} (c : M A) :
  (forall w, snd (c w) = w) -> metered c.
Proof.
  intros H w. exists [], [], [], []. rewrite H, extend_nil.
  split; [reflexivity|constructor].
Qed.

Lemma metered_ret {A} (a : A) : metered (ret a).
Proof. now apply metered_same. Qed.

Lemma metered_throw {A} (e : Thrown) : metered (@throw A e).
Proof. now apply metered_same. Qed.

Lemma metered_lift {A} (c : Completion A) : metered (lift c).
Proof. now apply metered_same. Qed.

Lemma metered_log (l : LogLine) : metered (log l).
Proof.
  intros w. exists [], [], [l], []. split; [|constructor].
  unfold log, extend. simpl. now rewrite !app_nil_r.
Qed.

Lemma metered_call {A} (c : NetCall) (r : Completion A) : metered (call c r).
Proof.
  intros w. exists [], [], [], [c]. split; [|constructor].
  unfold call, extend. simpl. now rewrite !app_nil_r.
Qed.

Lemma metered_captureMetrics mode type st cost :
  metered (captureMetrics mode type st cost).
Proof.
  intros w. destruct (isFinite (resolvedCost cost)) eqn:E.
  - rewrite captureMetrics_run by exact E. do 4 eexists.
    split; [reflexivity|]. constructor; [|constructor].
    exists cost. split; reflexivity.
  - rewrite captureMetrics_refused by exact E.
    exists [], [], [], []. rewrite extend_nil.
    split; [reflexivity|constructor].
Qed.

Lemma metered_bind {A B} (c : M A) (k : A -> M B) :
  metered c -> (forall a, metered (k a)) -> metered (bind c k).
Proof.
  intros Hc Hk w. destruct (Hc w) as (h & g & l & n & E & F).
  unfold bind. destruct (c w) as [[a|e] w']; simpl in E; subst w'.
  - destruct (Hk a (extend w h g l n)) as (h' & g' & l' & n' & E' & F').
    exists (h ++ h'), (g ++ g'), (l ++ l'), (n ++ n').
    rewrite E', extend_extend. split; [reflexivity|].
    now apply Forall2_app.
  - now exists h, g, l, n.
Qed.

Lemma metered_try_catch {A} (body : M A) (handler : Thrown -> M A) :
  metered body -> (forall e, metered (handler e)) ->
  metered (try_catch body handler).
Proof.
  intros Hc Hk w. destruct (Hc w) as (h & g & l & n & E & F).
  unfold try_catch. destruct (body w) as [[a|e] w']; simpl in E; subst w'.
  - now exists h, g, l, n.
  - destruct (Hk e (extend w h g l n)) as (h' & g' & l' & n' & E' & F').
    exists (h ++ h'), (g ++ g'), (l ++ l'), (n ++ n').
    rewrite E', extend_extend. split; [reflexivity|].
    now apply Forall2_app.
Qed.

Ltac metered_step :=
  first [ apply metered_ret | apply metered_throw | apply metered_lift
        | apply metered_log | apply metered_call
        | apply metered_captureMetrics
        | apply metered_bind; [|intros ?]
        | apply metered_try_catch; [|intros ?] ].

Variable clientMain : Sdk.
Variable constants : Constants.

Lemma metered_executeQuery query : metered (executeQuery clientMain query).
Proof. unfold executeQuery. repeat metered_step. Qed.

Lemma metered_executeTransaction transaction :
  metered (executeTransaction clientMain transaction).
Proof. unfold executeTransaction. repeat metered_step. Qed.

Lemma metered_executeGetTransactionRecord resp transactionName :
  metered (executeGetTransactionRecord clientMain resp transactionName).
Proof.
  unfold executeGetTransactionRecord. apply metered_try_catch.
  - apply metered_bind; [destruct (getRecord resp); metered_step|].
    intros _. repeat metered_step.
  - intros e. destruct (has_status_code e); repeat metered_step.
Qed.

Lemma metered_getExchangeRate :
  metered (getExchangeRate clientMain constants).
Proof.
  unfold getExchangeRate, getFileIdBytes.
  apply metered_bind; [apply metered_executeQuery|]. intros; metered_step.
Qed.

Lemma metered_getTinyBarGasFee_loop schedules :
  metered (getTinyBarGasFee_loop clientMain constants schedules).
Proof.
  induction schedules as [|s rest IH]; simpl; [metered_step|].
  destruct (is_eth_functionality constants s); [|exact IH].
  destruct (fees s) as [fs|]; [|exact IH].
  apply metered_bind; [apply metered_getExchangeRate|].
  intros rates. destruct fs; metered_step.
Qed.

Lemma metered_getTinyBarGasFee :
  metered (getTinyBarGasFee clientMain constants).
Proof.
  unfold getTinyBarGasFee, getFeeSchedule, getFileIdBytes.
  apply metered_bind.
  - apply metered_bind; [apply metered_executeQuery|]. intros; metered_step.
  - intros fs. destruct (current fs) as [cur|]; [|metered_step].
    destruct (transactionFeeSchedule cur); [|metered_step].
    apply metered_getTinyBarGasFee_loop.
Qed.

Lemma metered_submitContractCallQuery to data gas :
  metered (submitContractCallQuery clientMain to data gas).
Proof.
  unfold submitContractCallQuery.
  apply metered_bind; [metered_step|]. intros contractId.
  apply metered_bind; [metered_step|]. intros cost.
  apply metered_executeQuery.
Qed.

Lemma metered_HbarToWeiBar balance :
  metered (HbarToWeiBar constants balance).
Proof. destruct balance; metered_step. Qed.

(** X6: every operation of the client keeps the histogram and the gauge in
    step: whatever its outcome, it only adds to what the histogram, the
    gauge, the logger and the network client have received, and each added
    observation comes with one gauge decrement under the same mode and type,
    by the cost whose resolved value was observed. The [collect] callback
    is the one exception: it sets the gauge. *)
Theorem operations_keep_metrics_in_step :
  (forall query, metered (executeQuery clientMain query))
  /\ (forall transaction, metered (executeTransaction clientMain transaction))
  /\ (forall resp name,
        metered (executeGetTransactionRecord clientMain resp name))
  /\ metered (getTinyBarGasFee clientMain constants)
  /\ (forall to data gas,
        metered (submitContractCallQuery clientMain to data gas))
  /\ (forall account, metered (getAccountBalance clientMain account))
  /\ (forall account,
        metered (getAccountBalanceInWeiBar clientMain constants account))
  /\ (forall contract, metered (getContractBalance clientMain contract))
  /\ (forall contract,
        metered (getContractBalanceInWeiBar clientMain constants contract))
  /\ (forall address, metered (getAccountInfo clientMain address))
  /\ (forall shard realm address,
        metered (getContractByteCode clientMain shard realm address))
  /\ (forall buffer, metered (submitEthereumTransaction clientMain buffer))
  /\ ~ metered (collect clientMain).
Proof.
  repeat match goal with |- _ /\ _ => split end.
  - apply metered_executeQuery.
  - apply metered_executeTransaction.
  - apply metered_executeGetTransactionRecord.
  - apply metered_getTinyBarGasFee.
  - apply metered_submitContractCallQuery.
  - intros account. unfold getAccountBalance.
    apply metered_bind; [metered_step|]. intros; apply metered_executeQuery.
  - intros account. unfold getAccountBalanceInWeiBar, getAccountBalance.
    apply metered_bind; [|intros; apply metered_HbarToWeiBar].
    apply metered_bind; [metered_step|]. intros; apply metered_executeQuery.
  - intros contract. unfold getContractBalance.
    apply metered_bind; [metered_step|]. intros; apply metered_executeQuery.
  - intros contract. unfold getContractBalanceInWeiBar, getContractBalance.
    apply metered_bind; [|intros; apply metered_HbarToWeiBar].
    apply metered_bind; [metered_step|]. intros; apply metered_executeQuery.
  - intros address. unfold getAccountInfo.
    apply metered_bind; [metered_step|]. intros; apply metered_executeQuery.
  - intros shard realm address. unfold getContractByteCode.
    apply metered_bind; [metered_step|]. intros; apply metered_executeQuery.
  - intros buffer. apply metered_executeTransaction.
  - intros H. destruct (H empty_world) as (h & g & l & n & E & F).
    assert (Hg : exists v, gauge (snd (collect clientMain empty_world))
                           = [GaugeSet v]).
    { unfold collect, try_catch, bind, call, throw, ret, log, gauge_op.
      destruct (operatorAccountId clientMain) as [operator|];
        [|simpl; eexists; reflexivity].
      cbn [fst snd].
      destruct (Query_execute clientMain
                  (newQuery (AccountBalanceQuery (Some operator) None)))
        as [[b| | |]|e]; simpl; eexists; reflexivity. }
    destruct Hg as [v Hg]. rewrite E in Hg. simpl in Hg. subst g.
    inversion F as [|o g' h' gs' [cost [Hp _]] F' Hh Hgs]. discriminate Hp.
Qed.

End InStep.

(** ** The operations, outcome by outcome *)

Section Outcomes.

Variable clientMain : Sdk.
Variable constants : Constants.

Local Open Scope list_scope.

(** X7: the [collect] callback always completes and never touches the
    histogram. With an operator it asks the network for the operator's
    balance once and sets the gauge to the balance in tinybars, or to 0,
    with the failure logged, when the query fails or resolves to something
    else than a balance; without an operator no query is sent, the error of
    [setAccountId] is logged and the gauge is set to 0. *)
Theorem collect_always_completes (w : World) :
  (operatorAccountId clientMain = None ->
   exists e,
     collect clientMain w
     = (Return tt,
        extend w [] [GaugeSet (of_Z 0)] [ErrorCollectingBalance e] []))
  /\ (forall operator,
        operatorAccountId clientMain = Some operator ->
        let query := newQuery (AccountBalanceQuery (Some operator) None) in
        collect clientMain w
        = (Return tt,
           match Query_execute clientMain query with
           | Return (BalanceResponse b) =>
               extend w []
                 [GaugeSet (Long_toNumber (toTinybars (hbars b)))] []
                 [QueryExecute query]
           | Return _ =>
               extend w [] [GaugeSet (of_Z 0)]
                 [ErrorCollectingBalance
                    (TypeError
                       "Cannot read properties of undefined (reading 'toTinybars')")]
                 [QueryExecute query]
           | Throw e =>
               extend w [] [GaugeSet (of_Z 0)] [ErrorCollectingBalance e]
                 [QueryExecute query]
           end)).
Proof.
  unfold collect, try_catch, bind, call, throw, ret, log, gauge_op, extend.
  split.
  - intros ->. eexists. simpl. now rewrite ?app_nil_r.
  - intros operator ->. cbn [fst snd].
    destruct (Query_execute clientMain
                (newQuery (AccountBalanceQuery (Some operator) None)))
      as [[b| | |]|e];
      simpl; now rewrite ?app_nil_r.
Qed.

Lemma executeQuery_queried (query : Query) (w : World) (resp : Response) :
  Query_execute clientMain query = Return resp ->
  executeQuery clientMain query w = (Return resp, queried clientMain w query).
Proof.
  intros Hq. rewrite executeQuery_run, Hq. unfold queried, observedCost.
  now rewrite queryPayment_resolved.
Qed.

Lemma getFileIdBytes_fetched (address : string) (w : World)
  (bytes : Response) :
  Query_execute clientMain (newQuery (FileContentsQuery address))
  = Return bytes ->
  getFileIdBytes clientMain address w
  = (Return bytes, fileFetched clientMain w address).
Proof.
  intros Hq. unfold getFileIdBytes, fileFetched.
  now apply executeQuery_queried.
Qed.

Lemma getFeeSchedule_fetched (w : World) (bytes : Response) :
  Query_execute clientMain (feeScheduleQuery constants) = Return bytes ->
  getFeeSchedule clientMain constants w
  = (FeeSchedules_fromBytes clientMain bytes,
     fileFetched clientMain w (FEE_SCHEDULE_FILE_ID constants)).
Proof.
  intros Hq. unfold getFeeSchedule, bind, lift.
  now rewrite (getFileIdBytes_fetched _ w Hq).
Qed.

Lemma getExchangeRate_fetched (w : World) (bytes : Response) :
  Query_execute clientMain (exchangeRateQuery constants) = Return bytes ->
  getExchangeRate clientMain constants w
  = (ExchangeRates_fromBytes clientMain bytes,
     fileFetched clientMain w (EXCHANGE_RATE_FILE_ID constants)).
Proof.
  intros Hq. unfold getExchangeRate, bind, lift.
  now rewrite (getFileIdBytes_fetched _ w Hq).
Qed.

Lemma getTinyBarGasFee_fetched (w : World) (bytes : Response)
  (feeSchedules : FeeSchedules) :
  Query_execute clientMain (feeScheduleQuery constants) = Return bytes ->
  FeeSchedules_fromBytes clientMain bytes = Return feeSchedules ->
  getTinyBarGasFee clientMain constants w
  = match current feeSchedules with
    | None => throw (Error "Invalid FeeSchedules proto format")
    | Some cur =>
        match transactionFeeSchedule cur with
        | None => throw (Error "Invalid FeeSchedules proto format")
        | Some schedules =>
            getTinyBarGasFee_loop clientMain constants schedules
        end
    end (fileFetched clientMain w (FEE_SCHEDULE_FILE_ID constants)).
Proof.
  intros Hq Hp. unfold getTinyBarGasFee. unfold bind at 1.
  now rewrite (getFeeSchedule_fetched w Hq), Hp.
Qed.

Lemma loop_selected (before after : list TransactionFeeSchedule)
  (s : TransactionFeeSchedule) (fs : list FeeData) :
  (forall s', In s' before -> selected constants s' = false) ->
  is_eth_functionality constants s = true ->
  fees s = Some fs ->
  getTinyBarGasFee_loop clientMain constants (before ++ s :: after)
  = bind (getExchangeRate clientMain constants)
      (fun exchangeRates =>
         match fs with
         | fee0 :: _ =>
             ret (convertGasPriceToTinyBars constants (servicedata fee0)
                    exchangeRates)
         | [] =>
             throw (TypeError
               "Cannot read properties of undefined (reading 'servicedata')")
         end).
Proof.
  intros Hbefore Heth Hfees. rewrite loop_skips by exact Hbefore.
  simpl. now rewrite Heth, Hfees.
Qed.

(** X8: when both system files are served and parsed and the first entry of
    the table that has the contract-call code and a [fees] list carries a
    gas component, [getTinyBarGasFee] returns the price computed from that
    entry and the current rate, whatever entries come after it, having read
    the fee-schedule file and then the exchange-rate file, each metered as
    one successful query at the payment its query carries once executed. *)
Theorem getTinyBarGasFee_from_first_entry
  (w : World) (bytes rateBytes : Response) (feeSchedules : FeeSchedules)
  (cur : FeeSchedule) (before after : list TransactionFeeSchedule)
  (s : TransactionFeeSchedule) (fee0 : FeeData) (others : list FeeData)
  (feeComponents : FeeComponents) (gas : Long) (rates : ExchangeRates) :
  Query_execute clientMain (feeScheduleQuery constants) = Return bytes ->
  FeeSchedules_fromBytes clientMain bytes = Return feeSchedules ->
  current feeSchedules = Some cur ->
  transactionFeeSchedule cur = Some (before ++ s :: after) ->
  (forall s', In s' before -> selected constants s' = false) ->
  is_eth_functionality constants s = true ->
  fees s = Some (fee0 :: others) ->
  servicedata fee0 = Some feeComponents ->
  contractTransactionGas feeComponents = Some gas ->
  Query_execute clientMain (exchangeRateQuery constants) = Return rateBytes ->
  ExchangeRates_fromBytes clientMain rateBytes = Return rates ->
  getTinyBarGasFee clientMain constants w
  = (Return
       (Math_ceil
          (mul (div (Long_toNumber gas) (of_Z 1000))
               (div (rate_hbars (currentRate rates))
                    (rate_cents (currentRate rates))))),
     fileFetched clientMain
       (fileFetched clientMain w (FEE_SCHEDULE_FILE_ID constants))
       (EXCHANGE_RATE_FILE_ID constants)).
Proof.
  intros Hq Hp Hc Ht Hbefore Heth Hfees Hsd Hgas Hrq Hrp.
  rewrite (getTinyBarGasFee_fetched w Hq Hp), Hc, Ht.
  rewrite (loop_selected before after s Hbefore Heth Hfees).
  unfold bind. rewrite (getExchangeRate_fetched _ Hrq), Hrp.
  unfold ret, convertGasPriceToTinyBars. now rewrite Hsd, Hgas.
Qed.

(** X9: [getTinyBarGasFee] reads the exchange-rate file only for an entry
    it has found: when the fee-schedule file does not parse, has no
    [current] table, or has no entry with the contract-call code and a
    [fees] list, it throws after the single read of the fee-schedule
    file, which stays metered as a successful query, at the payment its
    query carries once executed. *)
Theorem getTinyBarGasFee_single_fetch (w : World) (bytes : Response) :
  Query_execute clientMain (feeScheduleQuery constants) = Return bytes ->
  (forall e,
     FeeSchedules_fromBytes clientMain bytes = Throw e ->
     getTinyBarGasFee clientMain constants w
     = (Throw e, fileFetched clientMain w (FEE_SCHEDULE_FILE_ID constants)))
  /\ (forall feeSchedules,
        FeeSchedules_fromBytes clientMain bytes = Return feeSchedules ->
        (current feeSchedules = None
         \/ (exists cur, current feeSchedules = Some cur
                         /\ transactionFeeSchedule cur = None)
         \/ (exists cur schedules,
               current feeSchedules = Some cur
               /\ transactionFeeSchedule cur = Some schedules
               /\ forall s, In s schedules -> selected constants s = false)) ->
        exists message,
          getTinyBarGasFee clientMain constants w
          = (Throw (Error message),
             fileFetched clientMain w (FEE_SCHEDULE_FILE_ID constants))).
Proof.
  intros Hq. split.
  - intros e Hp. unfold getTinyBarGasFee. unfold bind at 1.
    now rewrite (getFeeSchedule_fetched w Hq), Hp.
  - intros feeSchedules Hp Hcases.
    rewrite (getTinyBarGasFee_fetched w Hq Hp).
    destruct Hcases as [Hc|[(cur & Hc & Ht)|(cur & schedules & Hc & Ht & Hs)]].
    + rewrite Hc. eexists. reflexivity.
    + rewrite Hc, Ht. eexists. reflexivity.
    + rewrite Hc, Ht, loop_not_found by exact Hs. eexists. reflexivity.
Qed.

(** X10: once an entry with the contract-call code and a [fees] list is
    found, the exchange rate is fetched before the entry's fee data is
    looked at: if that fetch fails its error is what is thrown, and if it
    succeeds and the [fees] list is empty a [TypeError] is thrown, after
    both files were read. *)
Theorem getTinyBarGasFee_rate_before_fee_data
  (w : World) (bytes : Response) (feeSchedules : FeeSchedules)
  (cur : FeeSchedule) (before after : list TransactionFeeSchedule)
  (s : TransactionFeeSchedule) (fs : list FeeData) :
  Query_execute clientMain (feeScheduleQuery constants) = Return bytes ->
  FeeSchedules_fromBytes clientMain bytes = Return feeSchedules ->
  current feeSchedules = Some cur ->
  transactionFeeSchedule cur = Some (before ++ s :: after) ->
  (forall s', In s' before -> selected constants s' = false) ->
  is_eth_functionality constants s = true ->
  fees s = Some fs ->
  (forall e,
     Query_execute clientMain (exchangeRateQuery constants) = Throw e ->
     fst (getTinyBarGasFee clientMain constants w) = Throw (rethrow e))
  /\ (forall rateBytes rates,
        Query_execute clientMain (exchangeRateQuery constants)
        = Return rateBytes ->
        ExchangeRates_fromBytes clientMain rateBytes = Return rates ->
        fs = [] ->
        getTinyBarGasFee clientMain constants w
        = (Throw (TypeError
             "Cannot read properties of undefined (reading 'servicedata')"),
           fileFetched clientMain
       (fileFetched clientMain w (FEE_SCHEDULE_FILE_ID constants))
             (EXCHANGE_RATE_FILE_ID constants))).
Proof.
  intros Hq Hp Hc Ht Hbefore Heth Hfees.
  rewrite (getTinyBarGasFee_fetched w Hq Hp), Hc, Ht.
  rewrite (loop_selected before after s Hbefore Heth Hfees). split.
  - intros e He. rewrite fst_bind. unfold getExchangeRate, getFileIdBytes.
    rewrite fst_bind, executeQuery_result.
    fold (exchangeRateQuery constants). now rewrite He.
  - intros rateBytes rates Hrq Hrp ->. unfold bind.
    now rewrite (getExchangeRate_fetched _ Hrq), Hrp.
Qed.

(** X11: a failed cost estimation ends [submitContractCallQuery] at once:
    the error of [getCost] reaches the caller as it was thrown, status or
    not, the query is never executed, and nothing is observed. *)
Theorem submitContractCallQuery_cost_failure
  (to data : string) (gas : number) (w : World) (contractId : ContractId)
  (e : Thrown) :
  (if startsWith (prune0x to) "00000000000"
   then ContractId_fromSolidityAddress clientMain (prune0x to)
   else ContractId_fromEvmAddress clientMain 0 0 (prune0x to))
  = Return contractId ->
  Query_getCost clientMain (contractCallQueryOf clientMain contractId data gas)
  = Throw e ->
  submitContractCallQuery clientMain to data gas w
  = (Throw e,
     extend w [] [] []
       [QueryGetCost (contractCallQueryOf clientMain contractId data gas)]).
Proof.
  intros Hid Hcost. unfold submitContractCallQuery.
  unfold bind at 1, lift at 1. rewrite Hid.
  fold (contractCallQueryOf clientMain contractId data gas).
  unfold bind, call. rewrite Hcost. unfold extend. now rewrite !app_nil_r.
Qed.

(** X12: an identifier that the SDK refuses to parse stops the operation
    before anything else happens: the parser's error is thrown as it is,
    and no network call, observation, gauge change or log line is made. *)
Theorem unparsed_id_stops_operation (w : World) (e : Thrown) :
  (forall account,
     AccountId_fromString clientMain account = Throw e ->
     getAccountBalance clientMain account w = (Throw e, w)
     /\ getAccountInfo clientMain account w = (Throw e, w)
     /\ getAccountBalanceInWeiBar clientMain constants account w
        = (Throw e, w))
  /\ (forall contract,
        ContractId_fromString clientMain contract = Throw e ->
        getContractBalance clientMain contract w = (Throw e, w)
        /\ getContractBalanceInWeiBar clientMain constants contract w
           = (Throw e, w))
  /\ (forall shard realm address,
        ContractId_fromEvmAddress clientMain shard realm address = Throw e ->
        getContractByteCode clientMain shard realm address w = (Throw e, w))
  /\ (forall to data gas,
        (if startsWith (prune0x to) "00000000000"
         then ContractId_fromSolidityAddress clientMain (prune0x to)
         else ContractId_fromEvmAddress clientMain 0 0 (prune0x to))
        = Throw e ->
        submitContractCallQuery clientMain to data gas w = (Throw e, w)).
Proof.
  split; [|split; [|split]].
  - intros account H.
    unfold getAccountBalanceInWeiBar, getAccountBalance, getAccountInfo,
      bind, lift.
    now rewrite H.
  - intros contract H.
    unfold getContractBalanceInWeiBar, getContractBalance, bind, lift.
    now rewrite H.
  - intros shard realm address H. unfold getContractByteCode, bind, lift.
    now rewrite H.
  - intros to data gas H. unfold submitContractCallQuery.
    unfold bind at 1, lift at 1. now rewrite H.
Qed.


(** X14: a read-only contract call that succeeds is metered with the cost
    the network estimated for it: one QUERY observation of type
    ContractCallQuery with status success and the estimated cost in
    tinybars, and one gauge decrement by the same amount. *)
Theorem submitContractCallQuery_observes_estimate
  (to data : string) (gas : number) (w : World) (contractId : ContractId)
  (cost : Hbar) (resp : Response) :
  (if startsWith (prune0x to) "00000000000"
   then ContractId_fromSolidityAddress clientMain (prune0x to)
   else ContractId_fromEvmAddress clientMain 0 0 (prune0x to))
  = Return contractId ->
  let query := contractCallQueryOf clientMain contractId data gas in
  Query_getCost clientMain query = Return cost ->
  Query_execute clientMain (setQueryPayment cost query) = Return resp ->
  fst (submitContractCallQuery clientMain to data gas w) = Return resp
  /\ histogram (snd (submitContractCallQuery clientMain to data gas w))
     = histogram w
       ++ [{| obs_mode := queryMode; obs_type := "ContractCallQuery";
              obs_status := Some StatusEnum.Success;
              obs_value := Long_toNumber (toTinybars cost) |}]
  /\ gauge (snd (submitContractCallQuery clientMain to data gas w))
     = gauge w
       ++ [GaugeDec queryMode "ContractCallQuery"
             (Some (Long_toNumber (toTinybars cost)))].
Proof.
  intros Hid query Hcost Hexec.
  destruct (@submitContractCallQuery_run clientMain to data gas w contractId
              cost Hcost Hid) as [Hrun _].
  fold query in Hrun. rewrite Hrun, executeQuery_run, Hexec.
  assert (Hname : query_name (setQueryPayment cost query)
                  = "ContractCallQuery").
  { unfold query_name. cbn [kind setQueryPayment]. subst query.
    now rewrite contractCallQueryOf_kind. }
  rewrite Hname. cbn [fst snd histogram gauge extend].
  rewrite !app_nil_r. unfold queryPaymentNumber. cbn [_queryPayment
    setQueryPayment executed option_map].
  now rewrite resolvedCost_Long.
Qed.

(** X15: [getRecord] returns a record exactly when
    [executeGetTransactionRecord] does, and the same one, but it is never
    metered: whatever the outcome it leaves the histogram and the gauge as
    they were, and so does [submitEthereumTransaction]. *)
Theorem unmetered_operations
  (resp : TransactionResponse) (transactionName : string)
  (buffer : bytes) (w : World) :
  (forall rec,
     fst (SDKClient_getRecord clientMain resp w) = Return rec
     <-> fst (executeGetTransactionRecord clientMain resp transactionName w)
         = Return rec)
  /\ histogram (snd (SDKClient_getRecord clientMain resp w)) = histogram w
  /\ gauge (snd (SDKClient_getRecord clientMain resp w)) = gauge w
  /\ histogram (snd (submitEthereumTransaction clientMain buffer w))
     = histogram w
  /\ gauge (snd (submitEthereumTransaction clientMain buffer w)) = gauge w.
Proof.
  split; [|split; [|split; [|split]]].
  - intros rec. rewrite executeGetTransactionRecord_run.
    unfold SDKClient_getRecord, call, throw.
    destruct (getRecord resp); [|simpl; split; discriminate].
    destruct (TransactionResponse_getRecord clientMain resp) as [r|e];
      simpl; [reflexivity|].
    destruct (has_status_code e); simpl; split; discriminate.
  - unfold SDKClient_getRecord, call, throw.
    destruct (getRecord resp); reflexivity.
  - unfold SDKClient_getRecord, call, throw.
    destruct (getRecord resp); reflexivity.
  - unfold submitEthereumTransaction. rewrite executeTransaction_run.
    destruct (Transaction_execute clientMain (EthereumTransaction buffer));
      simpl; apply app_nil_r.
  - unfold submitEthereumTransaction. rewrite executeTransaction_run.
    destruct (Transaction_execute clientMain (EthereumTransaction buffer));
      simpl; apply app_nil_r.
Qed.

End Outcomes.

(** ** The outcomes on concrete nodes *)

Lemma collect_always_completes_witness :
  (exists e,
     collect Scenario.anonymous empty_world
     = (Return tt,
        extend empty_world [] [GaugeSet (of_Z 0)] [ErrorCollectingBalance e]
          []))
  /\ collect Scenario.funded empty_world
     = (Return tt,
        {| histogram := []; gauge := [GaugeSet (Long_toNumber 500000000)];
           logger := [];
           network :=
             [QueryExecute
                (newQuery
                   (AccountBalanceQuery (Some Sample.operator) None))] |}).
Proof.
  split.
  - apply (proj1 (@collect_always_completes Scenario.anonymous empty_world)).
    reflexivity.
  - apply (proj2 (@collect_always_completes Scenario.funded empty_world)
             Sample.operator).
    reflexivity.
Defined.

Example collect_without_operator :
  collect Scenario.anonymous empty_world
  = (Return tt,
     {| histogram := []; gauge := [GaugeSet (of_Z 0)];
        logger :=
          [ErrorCollectingBalance
             (TypeError "Cannot read properties of null (reading 'clone')")];
        network := [] |}).
Proof. reflexivity. Qed.

Lemma getTinyBarGasFee_from_first_entry_witness :
  getTinyBarGasFee Scenario.crowded Sample.constants empty_world
  = (Return (of_Z 72),
     fileFetched Scenario.crowded
       (fileFetched Scenario.crowded empty_world "0.0.111") "0.0.112").
Proof.
  apply (@getTinyBarGasFee_from_first_entry Scenario.crowded Sample.constants
           empty_world (BytesResponse []) (BytesResponse [])
           (Sample.schedules
              [Scenario.priced 83 1000; Scenario.priced 84 853000;
               Scenario.priced 84 1000])
           {| transactionFeeSchedule :=
                Some [Scenario.priced 83 1000; Scenario.priced 84 853000;
                      Scenario.priced 84 1000] |}
           [Scenario.priced 83 1000] [Scenario.priced 84 1000]
           (Scenario.priced 84 853000)
           (Sample.feeData (Some (Sample.components (Some 853000)))) []
           (Sample.components (Some 853000)) 853000 Sample.rates);
    try reflexivity.
  intros s [<-|[]]. reflexivity.
Defined.

Lemma getTinyBarGasFee_single_fetch_witness :
  getTinyBarGasFee Scenario.garbled Sample.constants empty_world
  = (Throw Scenario.parseError,
     fileFetched Scenario.garbled empty_world "0.0.111")
  /\ exists message,
       getTinyBarGasFee
         (Sample.sdk (Sample.schedules [Sample.entry 84 None])
            (Return (FunctionResultResponse []))
            (Return (Sample.response true)) (Return (Sample.record 5000)))
         Sample.constants empty_world
       = (Throw (Error message),
          fileFetched Sample.healthy empty_world "0.0.111").
Proof.
  split.
  - apply (proj1 (@getTinyBarGasFee_single_fetch Scenario.garbled
                    Sample.constants empty_world (BytesResponse []) eq_refl)).
    reflexivity.
  - apply (proj2 (@getTinyBarGasFee_single_fetch
                    (Sample.sdk (Sample.schedules [Sample.entry 84 None])
                       (Return (FunctionResultResponse []))
                       (Return (Sample.response true))
                       (Return (Sample.record 5000)))
                    Sample.constants empty_world (BytesResponse []) eq_refl)
             (Sample.schedules [Sample.entry 84 None]) eq_refl).
    right. right.
    exists {| transactionFeeSchedule := Some [Sample.entry 84 None] |},
      [Sample.entry 84 None].
    split; [reflexivity|]. split; [reflexivity|].
    intros s [<-|[]]. reflexivity.
Defined.

Lemma getTinyBarGasFee_rate_before_fee_data_witness :
  fst (getTinyBarGasFee Scenario.ratesDown Sample.constants empty_world)
  = Throw (Error "transaction failed precheck")
  /\ getTinyBarGasFee
       (Sample.sdk (Sample.schedules [Sample.entry 84 (Some [])])
          (Return (FunctionResultResponse []))
          (Return (Sample.response true)) (Return (Sample.record 5000)))
       Sample.constants empty_world
     = (Throw (TypeError
          "Cannot read properties of undefined (reading 'servicedata')"),
        fileFetched Sample.healthy
          (fileFetched Sample.healthy empty_world "0.0.111") "0.0.112").
Proof.
  split.
  - apply (proj1 (@getTinyBarGasFee_rate_before_fee_data Scenario.ratesDown
                    Sample.constants empty_world (BytesResponse []) _
                    {| transactionFeeSchedule :=
                         Some [Sample.entry 84
                                 (Some [Sample.feeData
                                          (Some (Sample.components
                                                   (Some 853000)))])] |}
                    [] []
                    (Sample.entry 84
                       (Some [Sample.feeData
                                (Some (Sample.components (Some 853000)))]))
                    [Sample.feeData (Some (Sample.components (Some 853000)))]
                    eq_refl eq_refl eq_refl eq_refl
                    (fun s' (H : In s' []) => match H with end)
                    eq_refl eq_refl)
             (Sample.failure (Some StatusEnum.InsufficientPayerBalance))).
    reflexivity.
  - apply (proj2 (@getTinyBarGasFee_rate_before_fee_data
                    (Sample.sdk (Sample.schedules [Sample.entry 84 (Some [])])
                       (Return (FunctionResultResponse []))
                       (Return (Sample.response true))
                       (Return (Sample.record 5000)))
                    Sample.constants empty_world (BytesResponse []) _
                    {| transactionFeeSchedule :=
                         Some [Sample.entry 84 (Some [])] |}
                    [] [] (Sample.entry 84 (Some [])) []
                    eq_refl eq_refl eq_refl eq_refl
                    (fun s' (H : In s' []) => match H with end)
                    eq_refl eq_refl)
             (BytesResponse []) Sample.rates); reflexivity.
Defined.

Lemma submitContractCallQuery_cost_failure_witness :
  submitContractCallQuery Scenario.costless
    "0x5b38da6a701c568545dcfcb03fcb875f56beddc4" "0x" (of_Z 30000)
    empty_world
  = (Throw (Sample.failure (Some StatusEnum.InsufficientPayerBalance)),
     extend empty_world [] [] []
       [QueryGetCost
          (contractCallQueryOf Scenario.costless
             (Sample.contract "5b38da6a701c568545dcfcb03fcb875f56beddc4")
             "0x" (of_Z 30000))]).
Proof.
  apply (@submitContractCallQuery_cost_failure Scenario.costless
           "0x5b38da6a701c568545dcfcb03fcb875f56beddc4" "0x" (of_Z 30000)
           empty_world
           (Sample.contract "5b38da6a701c568545dcfcb03fcb875f56beddc4")
           (Sample.failure (Some StatusEnum.InsufficientPayerBalance)));
    reflexivity.
Defined.

Lemma unparsed_id_stops_operation_witness :
  getAccountBalance Scenario.unparsable "not-an-id" empty_world
  = (Throw Scenario.parseError, empty_world)
  /\ getContractBalance Scenario.unparsable "not-an-id" empty_world
     = (Throw Scenario.parseError, empty_world)
  /\ getContractByteCode Scenario.unparsable 0 0 "zz" empty_world
     = (Throw Scenario.parseError, empty_world)
  /\ submitContractCallQuery Scenario.unparsable "0xzz" "0x" (of_Z 30000)
       empty_world
     = (Throw Scenario.parseError, empty_world).
Proof.
  destruct (@unparsed_id_stops_operation Scenario.unparsable Sample.constants
              empty_world Scenario.parseError)
    as (Haccount & Hcontract & Hcode & Hcall).
  split; [|split; [|split]].
  - apply (Haccount "not-an-id"). reflexivity.
  - apply (Hcontract "not-an-id"). reflexivity.
  - apply (Hcode 0 0 "zz"). reflexivity.
  - apply (Hcall "0xzz" "0x" (of_Z 30000)). reflexivity.
Defined.


Lemma submitContractCallQuery_observes_estimate_witness :
  fst (submitContractCallQuery Sample.healthy
         "0x5b38da6a701c568545dcfcb03fcb875f56beddc4" "0x" (of_Z 30000)
         empty_world)
  = Return (FunctionResultResponse [])
  /\ histogram
       (snd (submitContractCallQuery Sample.healthy
               "0x5b38da6a701c568545dcfcb03fcb875f56beddc4" "0x"
               (of_Z 30000) empty_world))
     = [{| obs_mode := "QUERY"; obs_type := "ContractCallQuery";
           obs_status := Some StatusEnum.Success;
           obs_value := Long_toNumber 100 |}]
  /\ gauge
       (snd (submitContractCallQuery Sample.healthy
               "0x5b38da6a701c568545dcfcb03fcb875f56beddc4" "0x"
               (of_Z 30000) empty_world))
     = [GaugeDec "QUERY" "ContractCallQuery" (Some (Long_toNumber 100))].
Proof.
  apply (@submitContractCallQuery_observes_estimate Sample.healthy
           "0x5b38da6a701c568545dcfcb03fcb875f56beddc4" "0x" (of_Z 30000)
           empty_world
           (Sample.contract "5b38da6a701c568545dcfcb03fcb875f56beddc4")
           {| toTinybars := 100 |} (FunctionResultResponse []));
    reflexivity.
Defined.

(** ** Failures without a usable status *)

Section UnusableStatus.

Variable clientMain : Sdk.

Local Open Scope list_scope.

(** X16: a failure whose status is absent, or has code 0, is passed on by
    all three executor methods as the very value that was caught. A query
    still records its one observation, at the payment it carries once
    executed and labelled with the status as it came (none when absent),
    while the log line carries the code, 21 for an absent status; a
    submission and a record retrieval record nothing. *)
Theorem failure_without_usable_status
  (query : Query) (transaction : Transaction) (resp : TransactionResponse)
  (transactionName : string) (w : World) (e : Thrown) :
  has_status_code e = false ->
  (Query_execute clientMain query = Throw e ->
   executeQuery clientMain query w
   = (Throw e,
      extend w
        [{| obs_mode := queryMode; obs_type := query_name query;
            obs_status := thrown_status e;
            obs_value := observedCost clientMain query |}]
        [GaugeDec queryMode (query_name query)
           (queryPaymentNumber (executed clientMain query))]
        [DebugQueryResponse (query_name query)
           (match thrown_status e with Some _ => 0 | None => 21 end)]
        [QueryExecute query]))
  /\ (Transaction_execute clientMain transaction = Throw e ->
      fst (executeTransaction clientMain transaction w) = Throw e
      /\ histogram (snd (executeTransaction clientMain transaction w))
         = histogram w)
  /\ (getRecord resp = true ->
      TransactionResponse_getRecord clientMain resp = Throw e ->
      executeGetTransactionRecord clientMain resp transactionName w
      = (Throw e, extend w [] [] [] [ResponseGetRecord resp])).
Proof.
  intros Hs.
  assert (Hr : rethrow e = e) by (unfold rethrow; now rewrite Hs).
  assert (Hc : statusCode e
               = match thrown_status e with Some _ => 0 | None => 21 end).
  { unfold statusCode. unfold has_status_code in Hs.
    destruct (thrown_status e) as [st|]; [|reflexivity].
    apply negb_false_iff, Z.eqb_eq in Hs. exact Hs. }
  split; [|split].
  - intros He. rewrite executeQuery_run, He, Hr, Hc.
    unfold observedCost. now rewrite queryPayment_resolved.
  - intros He. rewrite executeTransaction_run, He, Hr.
    split; [reflexivity|]. simpl. apply app_nil_r.
  - intros Hg He. now rewrite executeGetTransactionRecord_run, Hg, He, Hs.
Qed.

End UnusableStatus.

Lemma failure_without_usable_status_witness :
  executeQuery (Sample.failing None) Sample.paidCall empty_world
  = (Throw (Sample.failure None),
     {| histogram := [{| obs_mode := "QUERY";
                         obs_type := "ContractCallQuery";
                         obs_status := None; obs_value := of_Z 100 |}];
        gauge := [GaugeDec "QUERY" "ContractCallQuery" (Some (of_Z 100))];
        logger := [DebugQueryResponse "ContractCallQuery" 21];
        network := [QueryExecute Sample.paidCall] |})
  /\ fst (executeTransaction (Sample.failing (Some StatusEnum.Ok))
            (EthereumTransaction []) empty_world)
     = Throw (Sample.failure (Some StatusEnum.Ok))
  /\ executeGetTransactionRecord (Sample.failing None)
       (Sample.response true) "EthereumTransaction" empty_world
     = (Throw (Sample.failure None),
        {| histogram := []; gauge := []; logger := [];
           network := [ResponseGetRecord (Sample.response true)] |}).
Proof.
  split; [|split].
  - apply (proj1 (@failure_without_usable_status (Sample.failing None)
                    Sample.paidCall (EthereumTransaction [])
                    (Sample.response true) "EthereumTransaction" empty_world
                    (Sample.failure None) eq_refl)).
    reflexivity.
  - apply (proj1 (proj2 (@failure_without_usable_status
                           (Sample.failing (Some StatusEnum.Ok))
                           Sample.paidCall (EthereumTransaction [])
                           (Sample.response true) "EthereumTransaction"
                           empty_world
                           (Sample.failure (Some StatusEnum.Ok)) eq_refl))).
    reflexivity.
  - apply (proj2 (proj2 (@failure_without_usable_status (Sample.failing None)
                           Sample.paidCall (EthereumTransaction [])
                           (Sample.response true) "EthereumTransaction"
                           empty_world (Sample.failure None) eq_refl)));
      reflexivity.
Defined.
